(** * The search protocol adapter of the Vespa back-end

    A shallow embedding of
    - [searchlib/engine/searchreply.h]      (the [SearchReply::Coverage] record),
    - [searchlib/engine/proto_rpc_adapter.cpp] (envelope codec, request
      decoders, completion handlers, the three RPC methods and the
      client-side codec),
    followed by the properties established about them. *)

From Stdlib Require Import ZArith List String Ascii Bool Lia.
From Stdlib Require Import Init.Byte.
Import ListNotations.
Local Open Scope Z_scope.

Set Implicit Arguments.

(** ** Fixed-width unsigned integers

    Values of [uint8_t], [uint16_t], [uint32_t] and [uint64_t] are integers of
    [Z]; a conversion into a [w]-bit type reduces modulo [2^w]. *)

Definition wrap (w : Z) (z : Z) : Z := z mod 2 ^ w.

Definition wrap8  : Z -> Z := wrap 8.
Definition wrap16 : Z -> Z := wrap 16.
Definition wrap32 : Z -> Z := wrap 32.
Definition wrap64 : Z -> Z := wrap 64.

Definition in_range (w : Z) (z : Z) : Prop := 0 <= z < 2 ^ w.

(** [a] has no bit that [b] lacks. *)
Definition bits_subset (a b : Z) : Prop := Z.land a b = a.

(** ** searchreply.h: [SearchReply::Coverage] *)

Module SearchReply.

(** [enum DegradeReason {MATCH_PHASE=0x01, TIMEOUT=0x02, ADAPTIVE_TIMEOUT=0x04}] *)
Definition MATCH_PHASE      : Z := 1.
Definition TIMEOUT          : Z := 2.
Definition ADAPTIVE_TIMEOUT : Z := 4.

Record Coverage : Type := mkCoverage {
  _covered       : Z;   (* uint64_t *)
  _active        : Z;   (* uint64_t *)
  _soonActive    : Z;   (* uint64_t *)
  _degradeReason : Z;   (* uint32_t *)
  _nodesQueried  : Z;   (* uint16_t *)
  _nodesReplied  : Z    (* uint16_t *)
}.

(** [Coverage(uint64_t active, uint64_t covered)] *)
Definition Coverage_active_covered (active covered : Z) : Coverage :=
  {| _covered := wrap64 covered;
     _active := wrap64 active;
     _soonActive := wrap64 active;
     _degradeReason := 0;
     _nodesQueried := 1;
     _nodesReplied := 1 |}.

(** [Coverage(uint64_t active) : Coverage(active, active)] *)
Definition Coverage_active (active : Z) : Coverage :=
  Coverage_active_covered (wrap64 active) (wrap64 active).

(** [Coverage() : Coverage(0)] *)
Definition Coverage_default : Coverage := Coverage_active 0.

Definition getCovered (c : Coverage) : Z := _covered c.
Definition getActive (c : Coverage) : Z := _active c.
Definition getSoonActive (c : Coverage) : Z := _soonActive c.
Definition getDegradeReason (c : Coverage) : Z := _degradeReason c.
Definition getNodesQueried (c : Coverage) : Z := _nodesQueried c.
Definition getNodesReplied (c : Coverage) : Z := _nodesReplied c.

Definition wasDegradedByMatchPhase (c : Coverage) : bool :=
  negb (Z.land (_degradeReason c) MATCH_PHASE =? 0).
Definition wasDegradedByTimeout (c : Coverage) : bool :=
  negb (Z.land (_degradeReason c) TIMEOUT =? 0).

Definition setCovered (v : Z) (c : Coverage) : Coverage :=
  mkCoverage (wrap64 v) (_active c) (_soonActive c)
             (_degradeReason c) (_nodesQueried c) (_nodesReplied c).
Definition setActive (v : Z) (c : Coverage) : Coverage :=
  mkCoverage (_covered c) (wrap64 v) (_soonActive c)
             (_degradeReason c) (_nodesQueried c) (_nodesReplied c).
Definition setSoonActive (v : Z) (c : Coverage) : Coverage :=
  mkCoverage (_covered c) (_active c) (wrap64 v)
             (_degradeReason c) (_nodesQueried c) (_nodesReplied c).
Definition setDegradeReason (v : Z) (c : Coverage) : Coverage :=
  mkCoverage (_covered c) (_active c) (_soonActive c)
             (wrap32 v) (_nodesQueried c) (_nodesReplied c).
Definition setNodesQueried (v : Z) (c : Coverage) : Coverage :=
  mkCoverage (_covered c) (_active c) (_soonActive c)
             (_degradeReason c) (wrap16 v) (_nodesReplied c).
Definition setNodesReplied (v : Z) (c : Coverage) : Coverage :=
  mkCoverage (_covered c) (_active c) (_soonActive c)
             (_degradeReason c) (_nodesQueried c) (wrap16 v).

(** [_degradeReason |= FLAG] *)
Definition or_degradeReason (flag : Z) (c : Coverage) : Coverage :=
  mkCoverage (_covered c) (_active c) (_soonActive c)
             (wrap32 (Z.lor (_degradeReason c) flag))
             (_nodesQueried c) (_nodesReplied c).

Definition degradeMatchPhase : Coverage -> Coverage := or_degradeReason MATCH_PHASE.
Definition degradeTimeout : Coverage -> Coverage := or_degradeReason TIMEOUT.
Definition degradeAdaptiveTimeout : Coverage -> Coverage :=
  or_degradeReason ADAPTIVE_TIMEOUT.

(** The mutating member functions of [Coverage], reified. *)
Inductive CoverageOp : Type :=
| OpSetCovered (v : Z)
| OpSetActive (v : Z)
| OpSetSoonActive (v : Z)
| OpSetDegradeReason (v : Z)
| OpSetNodesQueried (v : Z)
| OpSetNodesReplied (v : Z)
| OpDegradeMatchPhase
| OpDegradeTimeout
| OpDegradeAdaptiveTimeout.

Definition apply_op (op : CoverageOp) (c : Coverage) : Coverage :=
  match op with
  | OpSetCovered v => setCovered v c
  | OpSetActive v => setActive v c
  | OpSetSoonActive v => setSoonActive v c
  | OpSetDegradeReason v => setDegradeReason v c
  | OpSetNodesQueried v => setNodesQueried v c
  | OpSetNodesReplied v => setNodesReplied v c
  | OpDegradeMatchPhase => degradeMatchPhase c
  | OpDegradeTimeout => degradeTimeout c
  | OpDegradeAdaptiveTimeout => degradeAdaptiveTimeout c
  end.

(** Every field holds a value of its declared width. *)
Definition well_formed (c : Coverage) : Prop :=
  in_range 64 (_covered c) /\ in_range 64 (_active c) /\
  in_range 64 (_soonActive c) /\ in_range 32 (_degradeReason c) /\
  in_range 16 (_nodesQueried c) /\ in_range 16 (_nodesReplied c).

(** The two counting invariants. *)
Definition counts_ok (c : Coverage) : Prop :=
  _covered c <= _active c /\ _nodesReplied c <= _nodesQueried c.

(** No degrade-reason bit of [c] is missing from [c']. *)
Definition mask_grows (c c' : Coverage) : Prop :=
  bits_subset (_degradeReason c) (_degradeReason c').

(** The operations that store a caller-chosen count. *)
Definition stores_count (op : CoverageOp) : bool :=
  match op with
  | OpSetCovered _ | OpSetActive _ | OpSetNodesQueried _ | OpSetNodesReplied _ => true
  | _ => false
  end.

(** The operation that overwrites the bitmask. *)
Definition overwrites_mask (op : CoverageOp) : bool :=
  match op with
  | OpSetDegradeReason _ => true
  | _ => false
  end.

End SearchReply.

(** ** The execution model

    The adapter runs against one in-flight call.  Its functions read and
    update a [World]: the call object they all hold a reference to, the
    clock, the shared compression settings and a trace of the externally
    visible steps. *)

Definition bytes : Type := list byte.

Definition size (b : bytes) : Z := Z.of_nat (List.length b).

(** Modelled from the spec: the values of a call's parameter and return lists
    (fnet's [FRT_Value]/[FRT_Values], not under src/).  A value is a tagged
    union; [b], [i], [l] and [x] are the type characters of an 8-bit, a 32-bit
    and a 64-bit integer and of a data blob. *)
Inductive FRT_Value : Type :=
| FRT_INT8 (_intval8 : Z)
| FRT_INT16 (_intval16 : Z)
| FRT_INT32 (_intval32 : Z)
| FRT_INT64 (_intval64 : Z)
| FRT_STRING (_str : string)
| FRT_DATA (_buf : bytes).

Definition FRT_Values : Type := list FRT_Value.

Definition type_char (v : FRT_Value) : ascii :=
  match v with
  | FRT_INT8 _ => "b"
  | FRT_INT16 _ => "h"
  | FRT_INT32 _ => "i"
  | FRT_INT64 _ => "l"
  | FRT_STRING _ => "s"
  | FRT_DATA _ => "x"
  end%char.

Definition GetTypeString (vs : FRT_Values) : string :=
  string_of_list_ascii (map type_char vs).

Definition AddInt8 (v : Z) (dst : FRT_Values) : FRT_Values := dst ++ [FRT_INT8 (wrap8 v)].
Definition AddInt32 (v : Z) (dst : FRT_Values) : FRT_Values := dst ++ [FRT_INT32 (wrap32 v)].
Definition AddData (buf : bytes) (dst : FRT_Values) : FRT_Values := dst ++ [FRT_DATA buf].

(** The one transport error code the adapter sets. *)
Inductive FRT_ErrorCode : Type :=
| FRTE_RPC_METHOD_FAILED.

(** Modelled from the spec: the transport's call object (fnet's
    [FRT_RPCRequest], not under src/): method name, parameters, return
    values, a call-level error, whether the call was detached from its
    invoking thread, and how often [Return] was signalled. *)
Record FRT_RPCRequest : Type := mkRequest {
  GetMethodName : string;
  GetParams : FRT_Values;
  GetReturn : FRT_Values;
  GetError : option (FRT_ErrorCode * string);
  IsDetached : bool;
  ReturnCount : nat
}.

(** Modelled from the spec: [FRT_RPCRequest::CheckReturnTypes] (fnet, not
    under src/) verifies that the shape of the return values is the given
    type string. *)
Definition CheckReturnTypes (types : string) (req : FRT_RPCRequest) : bool :=
  String.eqb types (GetTypeString (GetReturn req)).

(** [CompressionConfig::Type], with the wire values the method descriptions
    document: "0=raw, 6=lz4, 7=zstd". *)
Inductive CompressionType : Type := NONE | LZ4 | ZSTD.

Definition type_code (t : CompressionType) : Z :=
  match t with
  | NONE => 0
  | LZ4 => 6
  | ZSTD => 7
  end.

Record CompressionConfig : Type := mkCompressionConfig {
  type : CompressionType;
  compressionLevel : Z;
  threshold : Z;
  minSize : Z
}.

(** The settings of [FS4PersistentPacketStreamer::Instance] read by
    [get_compression_config]. *)
Record FS4PersistentPacketStreamer : Type := mkStreamer {
  getCompressionType : CompressionType;
  getCompressionLevel : Z;
  getCompressionLimit : Z
}.

(** Modelled from the spec: [RelativeTime] (relative_time.h, not under src/),
    "a relative-time clock snapshot": it keeps the clock reading taken when it
    is constructed. *)
Record RelativeTime : Type := mkRelativeTime {
  timeOfDawn : Z
}.

Inductive Event : Type :=
| EvWarning (msg : string)        (* LOG(warning, msg) *)
| EvDecompress (blob : bytes)     (* vespalib::compression::decompress entered *)
| EvParse (data : bytes)          (* MSG::ParseFromArray entered *)
| EvSearchDone                    (* SearchCompletionHandler::searchDone entered *)
| EvGetDocsumsDone                (* GetDocsumsCompletionHandler::getDocsumsDone entered *)
| EvPingDone.                     (* PingCompletionHandler::pingDone entered *)

Record World : Type := mkWorld {
  rpc : FRT_RPCRequest;                 (* the call every object of one dispatch refers to *)
  now : Z;                              (* what FastosClock::getTime would read *)
  streamer : FS4PersistentPacketStreamer;
  trace : list Event                    (* oldest first *)
}.

(** How a function can end: it returns, an [assert] fails and the process
    aborts, an exception of the compression library propagates, or it reads a
    member of an [FRT_Value] union that was not the one written. *)
Inductive Outcome (A : Type) : Type :=
| Done (a : A)
| AssertionFailed
| Thrown
| UndefinedRead.

Arguments AssertionFailed {A}.
Arguments Thrown {A}.
Arguments UndefinedRead {A}.

Definition M (A : Type) : Type := World -> Outcome A * World.

Definition ret {A : Type} (a : A) : M A := fun w => (Done a, w).

Definition bind {A B : Type} (c : M A) (k : A -> M B) : M B :=
  fun w =>
    match c w with
    | (Done a, w') => k a w'
    | (AssertionFailed, w') => (AssertionFailed, w')
    | (Thrown, w') => (Thrown, w')
    | (UndefinedRead, w') => (UndefinedRead, w')
    end.

Declare Scope adapter_scope.
Delimit Scope adapter_scope with adapter.
Notation "x <- c ;; k" := (bind c (fun x => k))
  (at level 61, c at next level, right associativity) : adapter_scope.
Notation "c ;; k" := (bind c (fun _ => k))
  (at level 61, right associativity) : adapter_scope.
Local Open Scope adapter_scope.

Definition get_world : M World := fun w => (Done w, w).
Definition emit (e : Event) : M unit :=
  fun w => (Done tt, mkWorld (rpc w) (now w) (streamer w) (trace w ++ [e])).
Definition update_rpc (f : FRT_RPCRequest -> FRT_RPCRequest) : M unit :=
  fun w => (Done tt, mkWorld (f (rpc w)) (now w) (streamer w) (trace w)).
Definition abort {A : Type} : M A := fun w => (AssertionFailed, w).
Definition throw {A : Type} : M A := fun w => (Thrown, w).
Definition undefined_read {A : Type} : M A := fun w => (UndefinedRead, w).

Definition LOG_warning (msg : string) : M unit := emit (EvWarning msg).

(** [req->Detach()] *)
Definition Detach : M unit :=
  update_rpc (fun r => mkRequest (GetMethodName r) (GetParams r) (GetReturn r)
                                 (GetError r) true (ReturnCount r)).

(** [req.Return()]: signals the transport that the call is finished.  The
    call object, and the handler in its stash, are valid until then; the
    count records how often the signal was given. *)
Definition Return : M unit :=
  update_rpc (fun r => mkRequest (GetMethodName r) (GetParams r) (GetReturn r)
                                 (GetError r) (IsDetached r) (S (ReturnCount r))).

(** [rpc->SetError(code, msg)] *)
Definition SetError (code : FRT_ErrorCode) (msg : string) : M unit :=
  update_rpc (fun r => mkRequest (GetMethodName r) (GetParams r) (GetReturn r)
                                 (Some (code, msg)) (IsDetached r) (ReturnCount r)).

(** [dst.SetMethodName(name)] *)
Definition SetMethodName (name : string) : M unit :=
  update_rpc (fun r => mkRequest name (GetParams r) (GetReturn r)
                                 (GetError r) (IsDetached r) (ReturnCount r)).

(** Writing through [*req.GetReturn()] and [*dst.GetParams()]. *)
Definition update_return (f : FRT_Values -> FRT_Values) : M unit :=
  update_rpc (fun r => mkRequest (GetMethodName r) (GetParams r) (f (GetReturn r))
                                 (GetError r) (IsDetached r) (ReturnCount r)).
Definition update_params (f : FRT_Values -> FRT_Values) : M unit :=
  update_rpc (fun r => mkRequest (GetMethodName r) (f (GetParams r)) (GetReturn r)
                                 (GetError r) (IsDetached r) (ReturnCount r)).

(** [RelativeTime(std::make_unique<FastosClock>())] *)
Definition RelativeTime_new : M RelativeTime :=
  fun w => (Done (mkRelativeTime (now w)), w).

(** ** External collaborators *)

(** What the [template <typename MSG>] codec requires of a protobuf message
    type.  [ParseFromArray] reports failure as [None]. *)
Class ProtoMessage (MSG : Type) : Type := {
  SerializeAsString : MSG -> bytes;
  ParseFromArray : bytes -> option MSG
}.

(** The build and the compression library (vespalib, not under src/):
    whether [assert] is compiled out, [CompressionConfig::toType], [compress]
    (the type it settled on and the bytes it produced) and [decompress]
    ([None] when it throws). *)
Class Platform : Type := {
  NDEBUG : bool;
  toType : Z -> CompressionType;
  compress : CompressionConfig -> bytes -> CompressionType * bytes;
  decompress : CompressionType -> Z -> bytes -> option bytes
}.

(** The wire-level message types, the domain types and [ProtoConverter]'s
    projections between them (not under src/).  A converter fills the body of
    a request; the request's clock is set by its constructor only. *)
Class ProtoConverter : Type := {
  ProtoSearchRequest : Type;
  ProtoSearchReply : Type;
  ProtoDocsumRequest : Type;
  ProtoDocsumReply : Type;
  ProtoMonitorRequest : Type;
  ProtoMonitorReply : Type;
  ProtoSearchRequest_msg :: ProtoMessage ProtoSearchRequest;
  ProtoSearchReply_msg :: ProtoMessage ProtoSearchReply;
  ProtoDocsumRequest_msg :: ProtoMessage ProtoDocsumRequest;
  ProtoDocsumReply_msg :: ProtoMessage ProtoDocsumReply;
  ProtoMonitorRequest_msg :: ProtoMessage ProtoMonitorRequest;
  ProtoMonitorReply_msg :: ProtoMessage ProtoMonitorReply;
  SearchBody : Type;
  DocsumBody : Type;
  MonitorRequest : Type;
  SearchReply : Type;
  DocsumReply : Type;
  MonitorReply : Type;
  SearchBody_default : SearchBody;
  DocsumBody_default : bool -> DocsumBody;
  MonitorRequest_default : MonitorRequest;
  search_request_from_proto : ProtoSearchRequest -> SearchBody -> SearchBody;
  docsum_request_from_proto : ProtoDocsumRequest -> DocsumBody -> DocsumBody;
  monitor_request_from_proto : ProtoMonitorRequest -> MonitorRequest -> MonitorRequest;
  search_reply_to_proto : SearchReply -> ProtoSearchReply;
  docsum_reply_to_proto : DocsumReply -> ProtoDocsumReply;
  monitor_reply_to_proto : MonitorReply -> ProtoMonitorReply
}.

(** [SearchRequest] and [DocsumRequest]: the clock handed to the constructor
    and the fields the converter fills. *)
Record SearchRequest {PC : ProtoConverter} : Type := mkSearchRequest {
  search_relative_time : RelativeTime;
  search_body : SearchBody
}.

Record DocsumRequest {PC : ProtoConverter} : Type := mkDocsumRequest {
  docsum_relative_time : RelativeTime;
  docsum_body : DocsumBody
}.

Arguments mkSearchRequest {PC} _ _.
Arguments mkDocsumRequest {PC} _ _.

(** ** proto_rpc_adapter.cpp *)

Definition get_compression_config (s : FS4PersistentPacketStreamer) : CompressionConfig :=
  mkCompressionConfig (getCompressionType s) (getCompressionLevel s) 80
                      (getCompressionLimit s).

(** [assert(cond)] *)
Definition assert {P : Platform} (cond : bool) : M unit :=
  if NDEBUG then ret tt else if cond then ret tt else abort.

Section Codec.
Context {P : Platform} {MSG : Type} {PM : ProtoMessage MSG}.

Definition encode_message (s : FS4PersistentPacketStreamer) (src : MSG)
           (dst : FRT_Values) : FRT_Values :=
  let output := SerializeAsString src in
  let buf := output in
  let (type, compressed) := compress (get_compression_config s) buf in
  AddData compressed (AddInt32 (size buf) (AddInt8 (type_code type) dst)).

(** [decompress(...)], entered with the blob it is given. *)
Definition call_decompress (t : CompressionType) (uncompressed_size : Z)
           (blob : bytes) : M bytes :=
  emit (EvDecompress blob) ;;
  match decompress t uncompressed_size blob with
  | Some uncompressed => ret uncompressed
  | None => throw
  end.

(** [dst.ParseFromArray(data, len)] *)
Definition call_ParseFromArray (data : bytes) : M (option MSG) :=
  emit (EvParse data) ;;
  ret (ParseFromArray data).

(** The result is the message parsed into [dst], [None] standing for
    [false]. *)
Definition decode_message (src : FRT_Values) : M (option MSG) :=
  match nth_error src 0, nth_error src 1, nth_error src 2 with
  | Some (FRT_INT8 encoding), Some (FRT_INT32 uncompressed_size), Some (FRT_DATA blob) =>
      uncompressed <- call_decompress (toType encoding) uncompressed_size blob ;;
      assert (uncompressed_size =? size uncompressed) ;;
      call_ParseFromArray uncompressed
  | _, _, _ => undefined_read
  end.
End Codec.

Section Adapter.
Context {P : Platform} {PC : ProtoConverter}.

(** *** Search *)

Record SearchRequestDecoder : Type := mkSearchRequestDecoder {
  search_decoder_relative_time : RelativeTime
}.

(** [SearchRequestDecoder(FRT_RPCRequest &rpc_in)] *)
Definition search_request_decoder : M SearchRequestDecoder :=
  relative_time <- RelativeTime_new ;;
  ret (mkSearchRequestDecoder relative_time).

(** [SearchRequestDecoder::decode] *)
Definition SearchRequestDecoder_decode (d : SearchRequestDecoder)
  : M (option SearchRequest) :=
  w <- get_world ;;
  r <- decode_message (MSG := ProtoSearchRequest) (GetParams (rpc w)) ;;
  match r with
  | None =>
      LOG_warning "got bad protobuf search request over rpc (unable to decode)" ;;
      ret None
  | Some msg =>
      let req := mkSearchRequest (search_decoder_relative_time d) SearchBody_default in
      ret (Some (mkSearchRequest (search_relative_time req)
                                 (search_request_from_proto msg (search_body req))))
  end.

(** [SearchCompletionHandler::searchDone] *)
Definition searchDone (reply : SearchReply) : M unit :=
  emit EvSearchDone ;;
  let msg := search_reply_to_proto reply in
  w <- get_world ;;
  update_return (encode_message (streamer w) msg) ;;
  Return.

(** *** Docsum *)

Record DocsumRequestDecoder : Type := mkDocsumRequestDecoder {
  docsum_decoder_relative_time : RelativeTime
}.

Definition docsum_request_decoder : M DocsumRequestDecoder :=
  relative_time <- RelativeTime_new ;;
  ret (mkDocsumRequestDecoder relative_time).

(** [DocsumRequestDecoder::decode] *)
Definition DocsumRequestDecoder_decode (d : DocsumRequestDecoder)
  : M (option DocsumRequest) :=
  w <- get_world ;;
  r <- decode_message (MSG := ProtoDocsumRequest) (GetParams (rpc w)) ;;
  match r with
  | None =>
      LOG_warning "got bad protobuf docsum request over rpc (unable to decode)" ;;
      ret None
  | Some msg =>
      let req := mkDocsumRequest (docsum_decoder_relative_time d)
                                 (DocsumBody_default true) in
      ret (Some (mkDocsumRequest (docsum_relative_time req)
                                 (docsum_request_from_proto msg (docsum_body req))))
  end.

(** [GetDocsumsCompletionHandler::getDocsumsDone] *)
Definition getDocsumsDone (reply : DocsumReply) : M unit :=
  emit EvGetDocsumsDone ;;
  let msg := docsum_reply_to_proto reply in
  w <- get_world ;;
  update_return (encode_message (streamer w) msg) ;;
  Return.

(** *** Ping *)

(** [PingCompletionHandler::pingDone] *)
Definition pingDone (reply : MonitorReply) : M unit :=
  emit EvPingDone ;;
  let msg := monitor_reply_to_proto reply in
  w <- get_world ;;
  update_return (encode_message (streamer w) msg) ;;
  Return.

(** *** The domain servers

    A server is handed the decoder's [decode] and the completion handler;
    it may run either, let time pass, and returns a reply or null.  What it
    completes later on a thread of its own is part of its run. *)
Definition SearchServer : Type :=
  M (option SearchRequest) -> (SearchReply -> M unit) -> M (option SearchReply).
Definition DocsumServer : Type :=
  M (option DocsumRequest) -> (DocsumReply -> M unit) -> M (option DocsumReply).
Definition MonitorServer : Type :=
  MonitorRequest -> (MonitorReply -> M unit) -> M (option MonitorReply).

(** [ProtoRpcAdapter::rpc_search] *)
Definition rpc_search (_search_server : SearchServer) : M unit :=
  Detach ;;
  let client := searchDone in
  decoder <- search_request_decoder ;;
  reply <- _search_server (SearchRequestDecoder_decode decoder) client ;;
  match reply with
  | Some r => client r
  | None => ret tt
  end.


(** [ProtoRpcAdapter::rpc_ping] *)
Definition rpc_ping (_monitor_server : MonitorServer) : M unit :=
  Detach ;;
  w <- get_world ;;
  r <- decode_message (MSG := ProtoMonitorRequest) (GetParams (rpc w)) ;;
  match r with
  | Some msg =>
      let req := monitor_request_from_proto msg MonitorRequest_default in
      let client := pingDone in
      reply <- _monitor_server req client ;;
      match reply with
      | Some rep => client rep
      | None => ret tt
      end
  | None =>
      LOG_warning "got bad protobuf monitor request over rpc (unable to decode)" ;;
      SetError FRTE_RPC_METHOD_FAILED "malformed monitor request" ;;
      Return
  end.

(** *** Client side *)

Definition encode_search_request (src : ProtoSearchRequest) : M unit :=
  SetMethodName "vespa.searchprotocol.search" ;;
  w <- get_world ;;
  update_params (encode_message (streamer w) src).

Definition decode_search_reply : M (option ProtoSearchReply) :=
  src <- get_world ;;
  if CheckReturnTypes "bix" (rpc src)
  then decode_message (MSG := ProtoSearchReply) (GetReturn (rpc src))
  else ret None.

Definition encode_docsum_request (src : ProtoDocsumRequest) : M unit :=
  SetMethodName "vespa.searchprotocol.getDocsums" ;;
  w <- get_world ;;
  update_params (encode_message (streamer w) src).

Definition decode_docsum_reply : M (option ProtoDocsumReply) :=
  src <- get_world ;;
  if CheckReturnTypes "bix" (rpc src)
  then decode_message (MSG := ProtoDocsumReply) (GetReturn (rpc src))
  else ret None.

Definition encode_monitor_request (src : ProtoMonitorRequest) : M unit :=
  SetMethodName "vespa.searchprotocol.ping" ;;
  w <- get_world ;;
  update_params (encode_message (streamer w) src).

Definition decode_monitor_reply : M (option ProtoMonitorReply) :=
  src <- get_world ;;
  if CheckReturnTypes "bix" (rpc src)
  then decode_message (MSG := ProtoMonitorReply) (GetReturn (rpc src))
  else ret None.
End Adapter.

(** ** Observations on a run *)

(** The entries of completion handlers in the trace. *)
Definition is_done (e : Event) : bool :=
  match e with
  | EvSearchDone | EvGetDocsumsDone | EvPingDone => true
  | _ => false
  end.

(** How often a completion handler's finalize operation has run. *)
Definition finalize_count (w : World) : nat :=
  List.length (filter is_done (trace w)).

(** The world after further steps were traced. *)
Definition traced (es : list Event) (w : World) : World :=
  mkWorld (rpc w) (now w) (streamer w) (trace w ++ es).

(** The world right after [Detach]. *)
Definition detached (w : World) : World := snd (Detach w).

(** ** Concrete collaborators, for running the model *)

(** Modelled from the spec: the compression library (vespalib, not under
    src/) restricted to the raw path, "encoding with algorithm=raw produces
    payload bytes identical to the uncompressed serialized message"; wire
    bytes 6 and 7 name the two compressors, which this instance cannot
    decompress, and every other byte is read as raw. *)
Definition raw_toType (encoding : Z) : CompressionType :=
  if encoding =? 6 then LZ4 else if encoding =? 7 then ZSTD else NONE.

Definition raw_decompress (t : CompressionType) (uncompressed_size : Z) (blob : bytes)
  : option bytes :=
  match t with
  | NONE => Some blob
  | _ => None
  end.

Definition raw_platform (ndebug : bool) : Platform :=
  {| NDEBUG := ndebug;
     toType := raw_toType;
     compress := fun _ buf => (NONE, buf);
     decompress := raw_decompress |}.

(** A one-field message: a tag byte [0x0a] followed by the field's bytes. *)
Definition tagged_message : ProtoMessage bytes :=
  {| SerializeAsString := fun m => x0a :: m;
     ParseFromArray := fun data =>
       match data with
       | x0a :: m => Some m
       | _ => None
       end |}.

(** All six wire messages tagged byte strings, all domain objects byte strings. *)
Definition bytes_converter : ProtoConverter :=
  {| ProtoSearchRequest := bytes;
     ProtoSearchReply := bytes;
     ProtoDocsumRequest := bytes;
     ProtoDocsumReply := bytes;
     ProtoMonitorRequest := bytes;
     ProtoMonitorReply := bytes;
     ProtoSearchRequest_msg := tagged_message;
     ProtoSearchReply_msg := tagged_message;
     ProtoDocsumRequest_msg := tagged_message;
     ProtoDocsumReply_msg := tagged_message;
     ProtoMonitorRequest_msg := tagged_message;
     ProtoMonitorReply_msg := tagged_message;
     SearchBody := bytes;
     DocsumBody := bytes;
     MonitorRequest := bytes;
     SearchReply := bytes;
     DocsumReply := bytes;
     MonitorReply := bytes;
     SearchBody_default := [];
     DocsumBody_default := fun _ => [];
     MonitorRequest_default := [];
     search_request_from_proto := fun msg _ => msg;
     docsum_request_from_proto := fun msg _ => msg;
     monitor_request_from_proto := fun msg _ => msg;
     search_reply_to_proto := fun reply => reply;
     docsum_reply_to_proto := fun reply => reply;
     monitor_reply_to_proto := fun reply => reply |}.

Definition example_streamer : FS4PersistentPacketStreamer :=
  mkStreamer LZ4 9 1024.

(** An incoming call with the given parameters, dispatched when the clock
    reads [t]. *)
Definition incoming (params : FRT_Values) (t : Z) : World :=
  mkWorld (mkRequest "" params [] None false 0) t example_streamer [].

(** A completed call with the given return values, as the client sees it. *)
Definition completed (returned : FRT_Values) : World :=
  mkWorld (mkRequest "" [] returned None false 1) 0 example_streamer [].

(** Time passing on the server's side. *)
Definition sleep (d : Z) : M unit :=
  fun w => (Done tt, mkWorld (rpc w) (now w + d) (streamer w) (trace w)).

Section ExampleServers.

(** Pulls the request, then replies synchronously. *)
Definition sync_search_server : SearchServer (PC := bytes_converter) :=
  fun decode _ =>
    req <- decode ;;
    match req with
    | Some r => ret (Some (search_body r))
    | None => ret (Some ([] : bytes))
    end.

(** Returns null; its own completion path pulls the request four ticks
    later and invokes the handler. *)
Definition async_search_server : SearchServer (PC := bytes_converter) :=
  fun decode client =>
    sleep 4 ;;
    req <- decode ;;
    match req with
    | Some r => client (search_body r)
    | None => client ([] : bytes)
    end ;;
    ret None.

Definition sync_docsum_server : DocsumServer (PC := bytes_converter) :=
  fun decode _ =>
    req <- decode ;;
    match req with
    | Some r => ret (Some (docsum_body r))
    | None => ret (Some ([] : bytes))
    end.


(** A monitor server that must not be reached. *)
Definition failing_monitor_server : MonitorServer (PC := bytes_converter) :=
  fun _ _ => abort.

Definition echo_monitor_server : MonitorServer (PC := bytes_converter) :=
  fun req _ => ret (Some req).
End ExampleServers.

(** A well-formed raw envelope of the message [hi], and two damaged ones. *)
Definition good_envelope : FRT_Values :=
  [FRT_INT8 0; FRT_INT32 3; FRT_DATA [x0a; x68; x69]].
Definition garbage_envelope : FRT_Values :=
  [FRT_INT8 0; FRT_INT32 3; FRT_DATA [xff; xfe; xfd]].
Definition truncated_envelope : FRT_Values :=
  [FRT_INT8 0; FRT_INT32 17; FRT_DATA [x0a; x68; x69]].

(** ** searchreply.h: [SearchReply::Hit] *)

(** Conversion into [int32_t]. *)
Definition to_int32 (z : Z) : Z := (z + 2 ^ 31) mod 2 ^ 32 - 2 ^ 31.

Module Hit.
Section WithTypes.
(** [document::GlobalId] and [search::HitRank] (not under src/) and the
    values their initialisers [gid()] and [metric(0)] give. *)
Variables (GlobalId HitRank : Type) (gid_default : GlobalId) (metric_zero : HitRank).

Record Hit : Type := mkHit {
  gid : GlobalId;
  metric : HitRank;
  path : Z;               (* uint32_t *)
  _distributionKey : Z    (* int32_t *)
}.

(** [Hit() : gid(), metric(0), path(0), _distributionKey(0)] *)
Definition Hit_default : Hit := mkHit gid_default metric_zero 0 0.

(** [void setDistributionKey(uint32_t key) { _distributionKey = key; }] *)
Definition setDistributionKey (key : Z) (h : Hit) : Hit :=
  mkHit (gid h) (metric h) (path h) (to_int32 (wrap32 key)).

(** [uint32_t getDistributionKey() const { return _distributionKey; }] *)
Definition getDistributionKey (h : Hit) : Z := wrap32 (_distributionKey h).
End WithTypes.
End Hit.

(** ** Coverage operations, by the field they write *)

Inductive CoverageField : Type :=
| FieldCovered | FieldActive | FieldSoonActive
| FieldDegradeReason | FieldNodesQueried | FieldNodesReplied.

Definition written_field (op : SearchReply.CoverageOp) : CoverageField :=
  match op with
  | SearchReply.OpSetCovered _ => FieldCovered
  | SearchReply.OpSetActive _ => FieldActive
  | SearchReply.OpSetSoonActive _ => FieldSoonActive
  | SearchReply.OpSetDegradeReason _ => FieldDegradeReason
  | SearchReply.OpSetNodesQueried _ => FieldNodesQueried
  | SearchReply.OpSetNodesReplied _ => FieldNodesReplied
  | SearchReply.OpDegradeMatchPhase => FieldDegradeReason
  | SearchReply.OpDegradeTimeout => FieldDegradeReason
  | SearchReply.OpDegradeAdaptiveTimeout => FieldDegradeReason
  end.

Definition is_degrade (op : SearchReply.CoverageOp) : bool :=
  match op with
  | SearchReply.OpDegradeMatchPhase
  | SearchReply.OpDegradeTimeout
  | SearchReply.OpDegradeAdaptiveTimeout => true
  | _ => false
  end.

(** The flag a degrade operation ors into the mask. *)
Definition degrade_flag (op : SearchReply.CoverageOp) : Z :=
  match op with
  | SearchReply.OpDegradeMatchPhase => SearchReply.MATCH_PHASE
  | SearchReply.OpDegradeTimeout => SearchReply.TIMEOUT
  | SearchReply.OpDegradeAdaptiveTimeout => SearchReply.ADAPTIVE_TIMEOUT
  | _ => 0
  end.

(** A chain of calls [c.op1().op2()...], leftmost first. *)
Definition apply_ops (ops : list SearchReply.CoverageOp) (c : SearchReply.Coverage)
  : SearchReply.Coverage :=
  fold_left (fun acc op => SearchReply.apply_op op acc) ops c.

Definition read_field (f : CoverageField) (c : SearchReply.Coverage) : Z :=
  match f with
  | FieldCovered => SearchReply.getCovered c
  | FieldActive => SearchReply.getActive c
  | FieldSoonActive => SearchReply.getSoonActive c
  | FieldDegradeReason => SearchReply.getDegradeReason c
  | FieldNodesQueried => SearchReply.getNodesQueried c
  | FieldNodesReplied => SearchReply.getNodesReplied c
  end.

Definition is_setter (op : SearchReply.CoverageOp) : bool := negb (is_degrade op).

(** The width of a field and the value a setter is called with. *)
Definition field_width (f : CoverageField) : Z :=
  match f with
  | FieldCovered | FieldActive | FieldSoonActive => 64
  | FieldDegradeReason => 32
  | FieldNodesQueried | FieldNodesReplied => 16
  end.

Definition setter_argument (op : SearchReply.CoverageOp) : Z :=
  match op with
  | SearchReply.OpSetCovered v | SearchReply.OpSetActive v
  | SearchReply.OpSetSoonActive v | SearchReply.OpSetDegradeReason v
  | SearchReply.OpSetNodesQueried v | SearchReply.OpSetNodesReplied v => v
  | _ => 0
  end.

Definition is_degradeTimeout (op : SearchReply.CoverageOp) : bool :=
  match op with
  | SearchReply.OpDegradeTimeout => true
  | _ => false
  end.

Definition is_degradeMatchPhase (op : SearchReply.CoverageOp) : bool :=
  match op with
  | SearchReply.OpDegradeMatchPhase => true
  | _ => false
  end.

Definition is_degradeAdaptiveTimeout (op : SearchReply.CoverageOp) : bool :=
  match op with
  | SearchReply.OpDegradeAdaptiveTimeout => true
  | _ => false
  end.

(** ** proto_rpc_adapter.cpp: the constructor's method table *)

(** The three member functions handed to [FRT_METHOD]. *)
Inductive MethodHandler : Type :=
| Handler_rpc_search
| Handler_rpc_getDocsums
| Handler_rpc_ping.

(** Modelled from the spec: what [FRT_ReflectionBuilder] (fnet, not under
    src/) records for a remote-callable method: its name, the type strings of
    its parameters and return values, its handler and its documentation.
    [DefineMethod] starts a method; [MethodDesc], [ParamDesc] and [ReturnDesc]
    document the method started last.  The builder holds the methods most
    recent first. *)
Record FRT_Method : Type := mkMethod {
  method_name : string;
  method_paramSpec : string;
  method_returnSpec : string;
  method_handler : MethodHandler;
  method_desc : string;
  method_params : list (string * string);
  method_returns : list (string * string)
}.

Definition FRT_ReflectionBuilder : Type := list FRT_Method.

Definition DefineMethod (name paramSpec returnSpec : string) (handler : MethodHandler)
           (rb : FRT_ReflectionBuilder) : FRT_ReflectionBuilder :=
  mkMethod name paramSpec returnSpec handler "" [] [] :: rb.

Definition MethodDesc (desc : string) (rb : FRT_ReflectionBuilder)
  : FRT_ReflectionBuilder :=
  match rb with
  | m :: rest =>
      mkMethod (method_name m) (method_paramSpec m) (method_returnSpec m)
               (method_handler m) desc (method_params m) (method_returns m) :: rest
  | [] => []
  end.

Definition ParamDesc (name desc : string) (rb : FRT_ReflectionBuilder)
  : FRT_ReflectionBuilder :=
  match rb with
  | m :: rest =>
      mkMethod (method_name m) (method_paramSpec m) (method_returnSpec m)
               (method_handler m) (method_desc m)
               (method_params m ++ [(name, desc)]) (method_returns m) :: rest
  | [] => []
  end.

Definition ReturnDesc (name desc : string) (rb : FRT_ReflectionBuilder)
  : FRT_ReflectionBuilder :=
  match rb with
  | m :: rest =>
      mkMethod (method_name m) (method_paramSpec m) (method_returnSpec m)
               (method_handler m) (method_desc m)
               (method_params m) (method_returns m ++ [(name, desc)]) :: rest
  | [] => []
  end.

(** [ProtoRpcAdapter::ProtoRpcAdapter]: the builder after the constructor's
    calls, started from the methods [orb] already has. *)
Definition ProtoRpcAdapter_register (orb : FRT_ReflectionBuilder) : FRT_ReflectionBuilder :=
  let rb := orb in
  let rb := DefineMethod "vespa.searchprotocol.search" "bix" "bix" Handler_rpc_search rb in
  let rb := MethodDesc "perform a search against this back-end" rb in
  let rb := ParamDesc "encoding" "0=raw, 6=lz4, 7=zstd" rb in
  let rb := ParamDesc "uncompressed_size" "uncompressed size of serialized request" rb in
  let rb := ParamDesc "request" "possibly compressed serialized request" rb in
  let rb := ReturnDesc "encoding" "0=raw, 6=lz4, 7=zstd" rb in
  let rb := ReturnDesc "uncompressed_size" "uncompressed size of serialized reply" rb in
  let rb := ReturnDesc "reply" "possibly compressed serialized reply" rb in
  let rb := DefineMethod "vespa.searchprotocol.getDocsums" "bix" "bix"
                         Handler_rpc_getDocsums rb in
  let rb := MethodDesc "fetch document summaries from this back-end" rb in
  let rb := ParamDesc "encoding" "0=raw, 6=lz4, 7=zstd" rb in
  let rb := ParamDesc "uncompressed_size" "uncompressed size of serialized request" rb in
  let rb := ParamDesc "request" "possibly compressed serialized request" rb in
  let rb := ReturnDesc "encoding" "0=raw, 6=lz4, 7=zstd" rb in
  let rb := ReturnDesc "uncompressed_size" "uncompressed size of serialized reply" rb in
  let rb := ReturnDesc "reply" "possibly compressed serialized reply" rb in
  let rb := DefineMethod "vespa.searchprotocol.ping" "bix" "bix" Handler_rpc_ping rb in
  let rb := MethodDesc "perform a search against this back-end" rb in
  let rb := ParamDesc "encoding" "0=raw, 6=lz4, 7=zstd" rb in
  let rb := ParamDesc "uncompressed_size" "uncompressed size of serialized request" rb in
  let rb := ParamDesc "request" "possibly compressed serialized request" rb in
  let rb := ReturnDesc "encoding" "0=raw, 6=lz4, 7=zstd" rb in
  let rb := ReturnDesc "uncompressed_size" "uncompressed size of serialized reply" rb in
  let rb := ReturnDesc "reply" "possibly compressed serialized reply" rb in
  rb.

(** The method a call's name selects, the most recently defined first. *)
Definition lookup_method (name : string) (rb : FRT_ReflectionBuilder) : option FRT_Method :=
  find (fun m => String.eqb name (method_name m)) rb.

(** The documentation every one of the three methods registers. *)
Definition envelope_params : list (string * string) :=
  [("encoding", "0=raw, 6=lz4, 7=zstd");
   ("uncompressed_size", "uncompressed size of serialized request");
   ("request", "possibly compressed serialized request")]%string.

Definition envelope_returns : list (string * string) :=
  [("encoding", "0=raw, 6=lz4, 7=zstd");
   ("uncompressed_size", "uncompressed size of serialized reply");
   ("reply", "possibly compressed serialized reply")]%string.

(** The three entries the constructor's calls amount to. *)
Definition search_entry : FRT_Method :=
  mkMethod "vespa.searchprotocol.search" "bix" "bix" Handler_rpc_search
           "perform a search against this back-end" envelope_params envelope_returns.

Definition getDocsums_entry : FRT_Method :=
  mkMethod "vespa.searchprotocol.getDocsums" "bix" "bix" Handler_rpc_getDocsums
           "fetch document summaries from this back-end" envelope_params envelope_returns.

Definition ping_entry : FRT_Method :=
  mkMethod "vespa.searchprotocol.ping" "bix" "bix" Handler_rpc_ping
           "perform a search against this back-end" envelope_params envelope_returns.

(** The registered method [m] is handled by [handler], accepts parameters of
    the shape of [params], returns values of shape [bix], and documents as
    many parameters and return values as its type strings have characters. *)
Definition serves (m : FRT_Method) (handler : MethodHandler) (params : FRT_Values) : Prop :=
  method_handler m = handler /\
  method_paramSpec m = GetTypeString params /\
  method_returnSpec m = "bix"%string /\
  List.length (method_params m) = String.length (method_paramSpec m) /\
  List.length (method_returns m) = String.length (method_returnSpec m).

(** ** When the external codec parts undo each other on a message *)

(** Under the settings [s], [decompress] undoes what [compress] does to the
    serialized bytes of [m], [toType] reads back the wire code of the chosen
    type, the message type parses what it serialized, and the serialized
    length fits the 32-bit size field. *)
Definition codec_roundtrips {P : Platform} {MSG : Type} {PM : ProtoMessage MSG}
           (s : FS4PersistentPacketStreamer) (m : MSG) : Prop :=
  size (SerializeAsString m) < 2 ^ 32 /\
  toType (type_code (fst (compress (get_compression_config s) (SerializeAsString m))))
  = fst (compress (get_compression_config s) (SerializeAsString m)) /\
  decompress (fst (compress (get_compression_config s) (SerializeAsString m)))
             (size (SerializeAsString m))
             (snd (compress (get_compression_config s) (SerializeAsString m)))
  = Some (SerializeAsString m) /\
  ParseFromArray (SerializeAsString m) = Some m.

(** A search call dispatched when the clock reads 5, and the same world four
    ticks later, when the server pulls the request. *)
Definition dispatch_world : World := incoming good_envelope 5.
Definition pull_world : World := snd (sleep 4 dispatch_world).

(** * Properties *)

(** ** Fixed-width arithmetic *)

Lemma wrap_in_range (w z : Z) : 0 <= w -> in_range w (wrap w z).
Proof.
  intros Hw. unfold in_range, wrap.
  apply Z.mod_pos_bound. apply Z.pow_pos_nonneg; lia.
Qed.

Lemma wrap_small (w z : Z) : in_range w z -> wrap w z = z.
Proof. intros Hz. unfold wrap. apply Z.mod_small. exact Hz. Qed.

Lemma wrap_idempotent (w z : Z) : 0 <= w -> wrap w (wrap w z) = wrap w z.
Proof. intros Hw. apply wrap_small, wrap_in_range, Hw. Qed.

Lemma testbit_beyond_width (w r n : Z) :
  0 <= w -> in_range w r -> w <= n -> Z.testbit r n = false.
Proof.
  intros Hw Hr Hn.
  rewrite <- (Z.mod_small r (2 ^ w)) by exact Hr.
  apply Z.mod_pow2_bits_high. lia.
Qed.

(** Or-ing a flag into a 32-bit mask keeps every bit the mask had. *)
Lemma bits_subset_lor_wrap32 (r flag : Z) :
  in_range 32 r -> bits_subset r (wrap32 (Z.lor r flag)).
Proof.
  intros Hr. unfold bits_subset, wrap32, wrap.
  apply Z.bits_inj'. intros n Hn.
  rewrite Z.land_spec.
  destruct (Z.ltb_spec n 32) as [Hlt | Hge].
  - rewrite Z.mod_pow2_bits_low by lia.
    rewrite Z.lor_spec.
    destruct (Z.testbit r n); reflexivity.
  - rewrite Z.mod_pow2_bits_high by lia.
    rewrite andb_false_r. symmetry.
    apply (@testbit_beyond_width 32); [lia | exact Hr | exact Hge].
Qed.

Lemma bits_subset_refl (r : Z) : bits_subset r r.
Proof. unfold bits_subset. apply Z.land_diag. Qed.

(** Closes a bound on a field that is either untouched or freshly wrapped. *)
Ltac solve_range :=
  unfold in_range, wrap64, wrap32, wrap16, wrap8, wrap in *;
  match goal with
  | |- context [?z mod 2 ^ ?w] =>
      pose proof (Z.mod_pos_bound z (2 ^ w) ltac:(lia)); lia
  | _ => lia
  end.

(** ** Coverage *)

Section CoverageFacts.
Import SearchReply.

Lemma Coverage_active_counts_ok (active : Z) : counts_ok (Coverage_active active).
Proof. unfold counts_ok; simpl. lia. Qed.

Lemma Coverage_active_well_formed (active : Z) : well_formed (Coverage_active active).
Proof.
  unfold well_formed, Coverage_active, Coverage_active_covered; simpl.
  repeat apply conj; solve_range.
Qed.

Lemma apply_op_well_formed (op : CoverageOp) (c : Coverage) :
  well_formed c -> well_formed (apply_op op c).
Proof.
  unfold well_formed.
  intros (Hc & Ha & Hs & Hd & Hq & Hr).
  destruct op; simpl; repeat apply conj; solve_range.
Qed.

Lemma or_degradeReason_counts (flag : Z) (c : Coverage) :
  counts_ok c -> counts_ok (or_degradeReason flag c).
Proof. unfold counts_ok; simpl. tauto. Qed.

Lemma or_degradeReason_mask_grows (flag : Z) (c : Coverage) :
  well_formed c -> mask_grows c (or_degradeReason flag c).
Proof.
  intros (_ & _ & _ & Hd & _). unfold mask_grows; simpl.
  apply bits_subset_lor_wrap32. exact Hd.
Qed.

(** C10.  For every 64-bit [active], [Coverage(active)] has
    [covered = active], [soonActive = active], an empty degrade reason and
    one node queried and one node replied; [Coverage()] is [Coverage(0)],
    so a default-constructed record already counts one node queried and
    one node replied. *)
Theorem Coverage_active_initial_state (active : Z) :
  in_range 64 active ->
  getCovered (Coverage_active active) = active /\
  getActive (Coverage_active active) = active /\
  getSoonActive (Coverage_active active) = active /\
  getDegradeReason (Coverage_active active) = 0 /\
  getNodesQueried (Coverage_active active) = 1 /\
  getNodesReplied (Coverage_active active) = 1 /\
  Coverage_default = Coverage_active 0 /\
  getNodesQueried Coverage_default = 1 /\
  getNodesReplied Coverage_default = 1.
Proof.
  intros Hactive.
  unfold getCovered, getActive, getSoonActive, Coverage_active,
    Coverage_active_covered, wrap64; simpl.
  rewrite wrap_idempotent by lia.
  rewrite (wrap_small Hactive).
  repeat split; reflexivity.
Qed.

Lemma Coverage_active_initial_state_witness :
  in_range 64 1000 /\
  getCovered (Coverage_active 1000) = 1000 /\
  getNodesQueried (Coverage_active 1000) = 1 /\
  getNodesReplied (Coverage_active 1000) = 1.
Proof.
  assert (Hr : in_range 64 1000) by (unfold in_range; lia).
  pose proof (Coverage_active_initial_state Hr) as (Hc & _ & _ & _ & Hq & Hp & _).
  split; [exact Hr | split; [exact Hc | split; [exact Hq | exact Hp]]].
Defined.

(** C6, as stated, fails: the setters and the two-argument constructor
    store what they are given.  From [Coverage()], [setCovered(1)] leaves
    [covered = 1 > active = 0], [setNodesReplied(2)] leaves
    [nodesReplied = 2 > nodesQueried = 1], [Coverage(0, 1)] starts with
    [covered > active], and [setDegradeReason(0)] clears the timeout bit. *)
Lemma Coverage_setters_break_invariants :
  well_formed Coverage_default /\ counts_ok Coverage_default /\
  ~ counts_ok (apply_op (OpSetCovered 1) Coverage_default) /\
  ~ counts_ok (apply_op (OpSetNodesReplied 2) Coverage_default) /\
  ~ counts_ok (Coverage_active_covered 0 1) /\
  ~ mask_grows (degradeTimeout Coverage_default)
      (apply_op (OpSetDegradeReason 0) (degradeTimeout Coverage_default)).
Proof.
  split; [apply Coverage_active_well_formed |].
  split; [apply Coverage_active_counts_ok |].
  split; [intros [Hcov _]; vm_compute in Hcov; apply Hcov; reflexivity |].
  split; [intros [_ Hnodes]; vm_compute in Hnodes; apply Hnodes; reflexivity |].
  split; [intros [Hcov _]; vm_compute in Hcov; apply Hcov; reflexivity |].
  intros Hmask. vm_compute in Hmask. discriminate Hmask.
Qed.

(** C6, amended.  [Coverage(active)] (hence [Coverage()]) starts with both
    counting invariants; every operation keeps the fields within their
    widths; every operation other than [setCovered], [setActive],
    [setNodesQueried] and [setNodesReplied] preserves [covered <= active]
    and [nodesReplied <= nodesQueried]; and every operation other than
    [setDegradeReason] keeps all degrade-reason bits that were set. *)
Theorem Coverage_invariants_under_operations (c : Coverage) (op : CoverageOp) :
  well_formed c ->
  (forall active, well_formed (Coverage_active active) /\
                  counts_ok (Coverage_active active)) /\
  well_formed (apply_op op c) /\
  (stores_count op = false -> counts_ok c -> counts_ok (apply_op op c)) /\
  (overwrites_mask op = false -> mask_grows c (apply_op op c)).
Proof.
  intros Hwf.
  split; [intros active; split;
          [apply Coverage_active_well_formed | apply Coverage_active_counts_ok] |].
  split; [apply apply_op_well_formed; exact Hwf |].
  split.
  - intros Hop Hc.
    destruct op; simpl in Hop; try discriminate; simpl;
      try (apply or_degradeReason_counts; exact Hc);
      unfold counts_ok in *; simpl; exact Hc.
  - intros Hop.
    destruct op; simpl in Hop; try discriminate; simpl;
      try (apply or_degradeReason_mask_grows; exact Hwf);
      unfold mask_grows; simpl; apply bits_subset_refl.
Qed.

Lemma Coverage_invariants_under_operations_witness :
  well_formed (Coverage_active 7) /\
  counts_ok (apply_op OpDegradeTimeout (Coverage_active 7)) /\
  mask_grows (Coverage_active 7) (apply_op OpDegradeTimeout (Coverage_active 7)).
Proof.
  pose proof (Coverage_active_well_formed 7) as Hwf.
  pose proof (@Coverage_invariants_under_operations
                (Coverage_active 7) OpDegradeTimeout Hwf)
    as (_ & _ & Hcount & Hmask).
  split; [exact Hwf |].
  split; [apply Hcount; [reflexivity | apply Coverage_active_counts_ok] |].
  apply Hmask. reflexivity.
Defined.
End CoverageFacts.

(** ** The envelope codec *)

Lemma wrap8_type_code (t : CompressionType) : wrap8 (type_code t) = type_code t.
Proof. destruct t; reflexivity. Qed.

Section CodecFacts.
Context {P : Platform} {MSG : Type} {PM : ProtoMessage MSG}.

(** What [encode_message] appends: the type [compress] settled on, the
    wrapped length of the serialized message and the bytes [compress]
    produced. *)
Lemma encode_message_appends (s : FS4PersistentPacketStreamer) (src : MSG)
      (dst : FRT_Values) :
  encode_message s src dst =
  dst ++ [FRT_INT8 (type_code (fst (compress (get_compression_config s)
                                             (SerializeAsString src))));
          FRT_INT32 (wrap32 (size (SerializeAsString src)));
          FRT_DATA (snd (compress (get_compression_config s)
                                  (SerializeAsString src)))].
Proof.
  unfold encode_message, AddData, AddInt32, AddInt8.
  destruct (compress (get_compression_config s) (SerializeAsString src))
    as [t compressed]; simpl.
  rewrite wrap8_type_code, <- !app_assoc. reflexivity.
Qed.

(** [decode_message] on an envelope whose blob decompresses to [data]. *)
Lemma decode_message_decompressed (encoding n : Z) (blob data : bytes) (w : World) :
  decompress (toType encoding) n blob = Some data ->
  decode_message [FRT_INT8 encoding; FRT_INT32 n; FRT_DATA blob] w =
  if NDEBUG || (n =? size data)
  then (Done (ParseFromArray data), traced [EvDecompress blob; EvParse data] w)
  else (AssertionFailed, traced [EvDecompress blob] w).
Proof.
  intros Hd.
  unfold decode_message, call_decompress, call_ParseFromArray, assert, bind, emit,
    ret, abort; simpl.
  rewrite Hd.
  destruct NDEBUG; simpl.
  - unfold traced; simpl. rewrite <- app_assoc. reflexivity.
  - destruct (n =? size data); simpl.
    + unfold traced; simpl. rewrite <- app_assoc. reflexivity.
    + reflexivity.
Qed.

(** [decode_message] on an envelope that [decompress] rejects. *)
Lemma decode_message_thrown (encoding n : Z) (blob : bytes) (w : World) :
  decompress (toType encoding) n blob = None ->
  decode_message [FRT_INT8 encoding; FRT_INT32 n; FRT_DATA blob] w =
  (Thrown, traced [EvDecompress blob] w).
Proof.
  intros Hd.
  unfold decode_message, call_decompress, bind, emit, throw; simpl.
  rewrite Hd. reflexivity.
Qed.

(** C9.  The second value [encode_message] writes is the byte length of the
    serialized message before compression; a serialized protobuf message is
    shorter than [2^32] bytes. *)
Theorem encode_message_declares_serialized_size
        (s : FS4PersistentPacketStreamer) (src : MSG) (dst : FRT_Values) :
  size (SerializeAsString src) < 2 ^ 32 ->
  nth_error (encode_message s src dst) (List.length dst + 1) =
  Some (FRT_INT32 (size (SerializeAsString src))).
Proof.
  intros Hsize.
  rewrite encode_message_appends.
  rewrite nth_error_app2 by lia.
  rewrite Nat.add_comm, Nat.add_sub.
  simpl. unfold wrap32. rewrite wrap_small; [reflexivity |].
  unfold in_range, size in *. lia.
Qed.

(** C7.  Decoding the envelope that [encode_message] wrote for [m] gives
    back [m], whatever compression is configured, when the compression
    library undoes what it did to the bytes of [m] and the message type
    parses what it serialized. *)
Theorem decode_encode_roundtrip
        (s : FS4PersistentPacketStreamer) (m : MSG) (w : World) :
  size (SerializeAsString m) < 2 ^ 32 ->
  toType (type_code (fst (compress (get_compression_config s) (SerializeAsString m))))
  = fst (compress (get_compression_config s) (SerializeAsString m)) ->
  decompress (fst (compress (get_compression_config s) (SerializeAsString m)))
             (size (SerializeAsString m))
             (snd (compress (get_compression_config s) (SerializeAsString m)))
  = Some (SerializeAsString m) ->
  ParseFromArray (SerializeAsString m) = Some m ->
  fst (decode_message (encode_message s m []) w) = Done (Some m).
Proof.
  intros Hsize Htype Hdec Hparse.
  rewrite encode_message_appends. simpl app.
  assert (Hwrap : wrap32 (size (SerializeAsString m)) = size (SerializeAsString m)).
  { unfold wrap32. apply wrap_small. unfold in_range, size in *. lia. }
  rewrite Hwrap.
  rewrite (@decode_message_decompressed _ _ _ (SerializeAsString m)).
  - rewrite Z.eqb_refl, orb_true_r. simpl. rewrite Hparse. reflexivity.
  - rewrite Htype. exact Hdec.
Qed.

(** The size check of [decode_message], for every envelope whose blob
    decompresses: a length that disagrees with the declared size is not
    reported as a failed decode; with assertions compiled in the assertion
    fails, with assertions compiled out the length is not compared at all.
    Whenever [decode_message] does return, its result is what parsing the
    decompressed bytes gives. *)
Theorem decode_message_size_check
        (encoding n : Z) (blob data : bytes) (w : World) :
  decompress (toType encoding) n blob = Some data ->
  fst (decode_message [FRT_INT8 encoding; FRT_INT32 n; FRT_DATA blob] w) =
  if NDEBUG || (n =? size data)
  then Done (ParseFromArray data)
  else AssertionFailed.
Proof.
  intros Hd.
  rewrite (@decode_message_decompressed encoding n blob data w Hd).
  destruct (NDEBUG || (n =? size data)); reflexivity.
Qed.
End CodecFacts.

Lemma encode_message_declares_serialized_size_witness :
  nth_error (encode_message (P := raw_platform false) (PM := tagged_message)
                            example_streamer [x68; x69] []) 1 =
  Some (FRT_INT32 3).
Proof.
  apply (@encode_message_declares_serialized_size
           (raw_platform false) bytes tagged_message example_streamer [x68; x69] []).
  vm_compute. reflexivity.
Defined.

Lemma decode_encode_roundtrip_witness :
  fst (decode_message (P := raw_platform false) (PM := tagged_message)
         (encode_message (P := raw_platform false) (PM := tagged_message)
                         example_streamer [x68; x69] [])
         (incoming [] 5)) =
  Done (Some [x68; x69]).
Proof.
  apply (@decode_encode_roundtrip
           (raw_platform false) bytes tagged_message example_streamer [x68; x69]
           (incoming [] 5)).
  - vm_compute. reflexivity.
  - reflexivity.
  - reflexivity.
  - reflexivity.
Defined.

(** C2.  The code breaks the claim.  The envelope declares 17 bytes and
    carries 3 raw ones, so the decompressed length disagrees with the declared
    size: with assertions compiled in, [decode_message] ends in its own failed
    assertion, which terminates the process, instead of returning false; with
    assertions compiled out it does not notice and returns the message parsed
    from the 3 bytes. *)
Lemma size_mismatch_is_not_a_decode_failure :
  @decompress (raw_platform false) (@toType (raw_platform false) 0) 17 [x0a; x68; x69]
  = Some [x0a; x68; x69] /\
  size [x0a; x68; x69] <> 17 /\
  fst (decode_message (P := raw_platform false) (PM := tagged_message)
                      truncated_envelope (incoming truncated_envelope 5))
  = AssertionFailed /\
  fst (decode_message (P := raw_platform true) (PM := tagged_message)
                      truncated_envelope (incoming truncated_envelope 5))
  = Done (Some [x68; x69]).
Proof.
  split; [reflexivity |].
  split; [vm_compute; discriminate |].
  split; reflexivity.
Qed.

Lemma decode_message_size_check_witness :
  fst (decode_message (P := raw_platform false) (PM := tagged_message)
                      garbage_envelope (incoming garbage_envelope 5))
  = Done None.
Proof.
  apply (@decode_message_size_check
           (raw_platform false) bytes tagged_message 0 3 [xff; xfe; xfd]
           [xff; xfe; xfd] (incoming garbage_envelope 5)).
  reflexivity.
Defined.

(** ** What the codec leaves alone *)

Lemma finalize_count_traced (es : list Event) (w : World) :
  finalize_count (traced es w) = (finalize_count w + List.length (filter is_done es))%nat.
Proof.
  unfold finalize_count, traced; simpl.
  rewrite filter_app, length_app. reflexivity.
Qed.


Section CodecFrame.
Context {P : Platform} {MSG : Type} {PM : ProtoMessage MSG}.

(** [decode_message] only adds codec steps to the trace: the call object,
    the clock and the compression settings stay as they were. *)
Lemma decode_message_frame (src : FRT_Values) (w : World) :
  exists es,
    snd (decode_message src w) = traced es w /\ filter is_done es = [].
Proof.
  assert (Hnil : forall o : Outcome (option MSG),
             exists es, snd (o, w) = traced es w /\ filter is_done es = []).
  { intros o. exists []. split; [| reflexivity].
    destruct w; unfold traced; simpl. rewrite app_nil_r. reflexivity. }
  unfold decode_message.
  destruct (nth_error src 0) as [[e | | | | |] |]; try apply Hnil.
  destruct (nth_error src 1) as [[| | n | | |] |]; try apply Hnil.
  destruct (nth_error src 2) as [[| | | | | blob] |]; try apply Hnil.
  unfold call_decompress, call_ParseFromArray, assert, bind, emit, ret, abort, throw;
    simpl.
  destruct (decompress (toType e) n blob) as [data |].
  - destruct NDEBUG; [| destruct (n =? size data)]; simpl.
    + exists [EvDecompress blob; EvParse data].
      unfold traced; simpl. rewrite <- app_assoc. split; reflexivity.
    + exists [EvDecompress blob; EvParse data].
      unfold traced; simpl. rewrite <- app_assoc. split; reflexivity.
    + exists [EvDecompress blob]. split; reflexivity.
  - exists [EvDecompress blob]. split; reflexivity.
Qed.

Lemma decode_message_keeps (src : FRT_Values) (w : World) :
  rpc (snd (decode_message src w)) = rpc w /\
  now (snd (decode_message src w)) = now w /\
  streamer (snd (decode_message src w)) = streamer w /\
  finalize_count (snd (decode_message src w)) = finalize_count w.
Proof.
  destruct (decode_message_frame src w) as (es & Hw & Hes).
  rewrite Hw, finalize_count_traced, Hes. simpl.
  repeat split. lia.
Qed.
End CodecFrame.

(** A list of values of shape [bix] is an envelope. *)
Lemma bix_is_envelope (vs : FRT_Values) :
  GetTypeString vs = "bix"%string ->
  exists encoding n blob, vs = [FRT_INT8 encoding; FRT_INT32 n; FRT_DATA blob].
Proof.
  unfold GetTypeString. intros H.
  destruct vs as [| v0 vs]; [discriminate H |].
  destruct v0; simpl in H; try discriminate H.
  destruct vs as [| v1 vs]; [discriminate H |].
  destruct v1; simpl in H; try discriminate H.
  destruct vs as [| v2 vs]; [discriminate H |].
  destruct v2; simpl in H; try discriminate H.
  destruct vs as [| v3 vs]; [| discriminate H].
  eauto.
Qed.

(** ** The adapter *)

Section AdapterFacts.
Context {P : Platform} {PC : ProtoConverter}.

(** The decoder the dispatcher builds for a call dispatched in [w]. *)
Lemma search_request_decoder_run (w : World) :
  search_request_decoder w =
  (Done (mkSearchRequestDecoder (mkRelativeTime (now w))), w).
Proof. reflexivity. Qed.

Lemma docsum_request_decoder_run (w : World) :
  docsum_request_decoder w =
  (Done (mkDocsumRequestDecoder (mkRelativeTime (now w))), w).
Proof. reflexivity. Qed.

(** *** Request decoders *)

Lemma SearchRequestDecoder_decode_null (d : SearchRequestDecoder) (w : World) :
  fst (decode_message (MSG := ProtoSearchRequest) (GetParams (rpc w)) w) = Done None ->
  fst (SearchRequestDecoder_decode d w) = Done None.
Proof.
  unfold SearchRequestDecoder_decode, bind, get_world. simpl.
  destruct (decode_message (GetParams (rpc w)) w) as [r w1]; simpl.
  intros Hr. rewrite Hr. reflexivity.
Qed.

Lemma SearchRequestDecoder_decode_some
      (d : SearchRequestDecoder) (w : World) (req : SearchRequest) :
  fst (SearchRequestDecoder_decode d w) = Done (Some req) ->
  exists msg,
    fst (decode_message (MSG := ProtoSearchRequest) (GetParams (rpc w)) w)
    = Done (Some msg) /\
    req = mkSearchRequest (search_decoder_relative_time d)
                          (search_request_from_proto msg SearchBody_default).
Proof.
  unfold SearchRequestDecoder_decode, bind, get_world. simpl.
  destruct (decode_message (GetParams (rpc w)) w) as [r w1]; simpl.
  destruct r as [[msg |] | | |]; simpl; intros Hr; try discriminate Hr.
  exists msg. split; [reflexivity |].
  injection Hr as Hr. symmetry. exact Hr.
Qed.

Lemma DocsumRequestDecoder_decode_null (d : DocsumRequestDecoder) (w : World) :
  fst (decode_message (MSG := ProtoDocsumRequest) (GetParams (rpc w)) w) = Done None ->
  fst (DocsumRequestDecoder_decode d w) = Done None.
Proof.
  unfold DocsumRequestDecoder_decode, bind, get_world. simpl.
  destruct (decode_message (GetParams (rpc w)) w) as [r w1]; simpl.
  intros Hr. rewrite Hr. reflexivity.
Qed.

Lemma DocsumRequestDecoder_decode_some
      (d : DocsumRequestDecoder) (w : World) (req : DocsumRequest) :
  fst (DocsumRequestDecoder_decode d w) = Done (Some req) ->
  exists msg,
    fst (decode_message (MSG := ProtoDocsumRequest) (GetParams (rpc w)) w)
    = Done (Some msg) /\
    req = mkDocsumRequest (docsum_decoder_relative_time d)
                          (docsum_request_from_proto msg (DocsumBody_default true)).
Proof.
  unfold DocsumRequestDecoder_decode, bind, get_world. simpl.
  destruct (decode_message (GetParams (rpc w)) w) as [r w1]; simpl.
  destruct r as [[msg |] | | |]; simpl; intros Hr; try discriminate Hr.
  exists msg. split; [reflexivity |].
  injection Hr as Hr. symmetry. exact Hr.
Qed.

(** The parse-failure path of the two decoders.  When [decode_message]
    returns false on the call's parameters, [decode] of the search and of the
    docsum decoder returns null; and a request either of them does return is
    the projection of the message that [decode_message] produced. *)
Theorem decoders_contain_corruption
        (ds : SearchRequestDecoder) (dd : DocsumRequestDecoder) (w : World) :
  (fst (decode_message (MSG := ProtoSearchRequest) (GetParams (rpc w)) w) = Done None ->
   fst (SearchRequestDecoder_decode ds w) = Done None) /\
  (fst (decode_message (MSG := ProtoDocsumRequest) (GetParams (rpc w)) w) = Done None ->
   fst (DocsumRequestDecoder_decode dd w) = Done None) /\
  (forall req,
      fst (SearchRequestDecoder_decode ds w) = Done (Some req) ->
      exists msg,
        fst (decode_message (MSG := ProtoSearchRequest) (GetParams (rpc w)) w)
        = Done (Some msg) /\
        req = mkSearchRequest (search_decoder_relative_time ds)
                              (search_request_from_proto msg SearchBody_default)) /\
  (forall req,
      fst (DocsumRequestDecoder_decode dd w) = Done (Some req) ->
      exists msg,
        fst (decode_message (MSG := ProtoDocsumRequest) (GetParams (rpc w)) w)
        = Done (Some msg) /\
        req = mkDocsumRequest (docsum_decoder_relative_time dd)
                              (docsum_request_from_proto msg (DocsumBody_default true))).
Proof.
  split; [apply SearchRequestDecoder_decode_null |].
  split; [apply DocsumRequestDecoder_decode_null |].
  split; intros req Hreq.
  - apply SearchRequestDecoder_decode_some. exact Hreq.
  - apply DocsumRequestDecoder_decode_some. exact Hreq.
Qed.

(** C3, amended.  The dispatcher builds the decoder with the clock read at
    dispatch, and a request that [decode] returns in any later world [w1]
    carries that reading, not the one of [w1]. *)
Theorem request_clock_is_read_at_dispatch
        (w0 w1 : World) (ds : SearchRequestDecoder) (dd : DocsumRequestDecoder) :
  fst (search_request_decoder w0) = Done ds ->
  fst (docsum_request_decoder w0) = Done dd ->
  (forall req,
      fst (SearchRequestDecoder_decode ds w1) = Done (Some req) ->
      timeOfDawn (search_relative_time req) = now w0) /\
  (forall req,
      fst (DocsumRequestDecoder_decode dd w1) = Done (Some req) ->
      timeOfDawn (docsum_relative_time req) = now w0).
Proof.
  rewrite search_request_decoder_run, docsum_request_decoder_run. simpl.
  intros Hs Hd.
  injection Hs as Hs. injection Hd as Hd. subst ds dd.
  split; intros req Hreq.
  - apply SearchRequestDecoder_decode_some in Hreq.
    destruct Hreq as (msg & _ & Hreq). subst req. reflexivity.
  - apply DocsumRequestDecoder_decode_some in Hreq.
    destruct Hreq as (msg & _ & Hreq). subst req. reflexivity.
Qed.

End AdapterFacts.

Section DispatchFacts.
Context {P : Platform} {PC : ProtoConverter}.

(** *** Completion handlers *)



(** *** Search and docsum dispatch *)






(** *** Ping dispatch *)

(** The parse-failure path of [rpc_ping].  When [decode_message] returns
    false on the parameters of a ping call, [rpc_ping] returns with the
    call-level error [FRTE_RPC_METHOD_FAILED], "malformed monitor request",
    set and [Return] signalled once; the return values are as they were, no
    completion handler ran, and the run is the same whatever the monitor
    server is, so the server is not invoked. *)
Theorem rpc_ping_malformed_request (server : MonitorServer) (w : World) :
  fst (decode_message (MSG := ProtoMonitorRequest) (GetParams (rpc w)) (detached w))
  = Done None ->
  fst (rpc_ping server w) = Done tt /\
  GetError (rpc (snd (rpc_ping server w)))
  = Some (FRTE_RPC_METHOD_FAILED, "malformed monitor request"%string) /\
  GetReturn (rpc (snd (rpc_ping server w))) = GetReturn (rpc w) /\
  ReturnCount (rpc (snd (rpc_ping server w))) = S (ReturnCount (rpc w)) /\
  finalize_count (snd (rpc_ping server w)) = finalize_count w /\
  (forall server' : MonitorServer, rpc_ping server' w = rpc_ping server w).
Proof.
  intros Hfail.
  pose proof (decode_message_keeps (MSG := ProtoMonitorRequest)
                (GetParams (rpc w)) (detached w)) as (Hrpc & _ & _ & Hcount).
  assert (Hrun : forall s : MonitorServer,
             rpc_ping s w =
             (Return (snd (SetError FRTE_RPC_METHOD_FAILED "malformed monitor request"
                (snd (LOG_warning
                        "got bad protobuf monitor request over rpc (unable to decode)"
                        (snd (decode_message (MSG := ProtoMonitorRequest)
                                (GetParams (rpc w)) (detached w))))))))).
  { intros s. unfold rpc_ping, bind.
    change (Detach w) with (Done tt, detached w). cbv beta iota.
    unfold get_world at 1. cbv beta iota.
    change (GetParams (rpc (detached w))) with (GetParams (rpc w)).
    destruct (decode_message (GetParams (rpc w)) (detached w)) as [r w1].
    simpl in Hfail. subst r. reflexivity. }
  rewrite Hrun.
  destruct (decode_message (GetParams (rpc w)) (detached w)) as [r w1].
  simpl in *. 
  repeat split.
  - rewrite Hrpc. reflexivity.
  - rewrite Hrpc. reflexivity.
  - unfold finalize_count in *; simpl.
    rewrite filter_app, length_app; simpl. rewrite Hcount.
    change (trace (detached w)) with (trace w). lia.
  - intros server'. rewrite Hrun. reflexivity.
Qed.
End DispatchFacts.

(** ** Runs of the adapter on concrete calls *)


(** C3, as stated, fails.  The call is dispatched when the clock reads 5 and
    the request is pulled when it reads 9: the decoded search request and the
    decoded docsum request carry 5. *)
Lemma request_clock_is_not_read_at_decode :
  fst (search_request_decoder dispatch_world)
  = Done (mkSearchRequestDecoder (mkRelativeTime 5)) /\
  fst (docsum_request_decoder dispatch_world)
  = Done (mkDocsumRequestDecoder (mkRelativeTime 5)) /\
  now pull_world = 9 /\
  fst (SearchRequestDecoder_decode (P := raw_platform false) (PC := bytes_converter)
         (mkSearchRequestDecoder (mkRelativeTime 5)) pull_world)
  = Done (Some (mkSearchRequest (PC := bytes_converter) (mkRelativeTime 5) [x68; x69])) /\
  fst (DocsumRequestDecoder_decode (P := raw_platform false) (PC := bytes_converter)
         (mkDocsumRequestDecoder (mkRelativeTime 5)) pull_world)
  = Done (Some (mkDocsumRequest (PC := bytes_converter) (mkRelativeTime 5) [x68; x69])) /\
  timeOfDawn (mkRelativeTime 5) <> now pull_world.
Proof.
  repeat split. vm_compute. discriminate.
Qed.

Lemma request_clock_is_read_at_dispatch_witness :
  timeOfDawn
    (search_relative_time
       (mkSearchRequest (PC := bytes_converter) (mkRelativeTime 5) [x68; x69]))
  = now dispatch_world.
Proof.
  apply (proj1 (@request_clock_is_read_at_dispatch
                  (raw_platform false) bytes_converter dispatch_world pull_world
                  (mkSearchRequestDecoder (mkRelativeTime 5))
                  (mkDocsumRequestDecoder (mkRelativeTime 5))
                  eq_refl eq_refl)).
  reflexivity.
Defined.

Lemma rpc_ping_malformed_request_witness :
  fst (rpc_ping (P := raw_platform false) failing_monitor_server
                (incoming garbage_envelope 5)) = Done tt /\
  GetError (rpc (snd (rpc_ping (P := raw_platform false) failing_monitor_server
                               (incoming garbage_envelope 5))))
  = Some (FRTE_RPC_METHOD_FAILED, "malformed monitor request"%string) /\
  GetReturn (rpc (snd (rpc_ping (P := raw_platform false) failing_monitor_server
                                (incoming garbage_envelope 5)))) = [].
Proof.
  pose proof
    (@rpc_ping_malformed_request
       (raw_platform false) bytes_converter failing_monitor_server
       (incoming garbage_envelope 5))
    as Hping.
  destruct Hping as (Hdone & Herror & Hreturn & _); [reflexivity |].
  split; [exact Hdone | split; [exact Herror | exact Hreturn]].
Defined.

Lemma decoders_contain_corruption_witness :
  fst (SearchRequestDecoder_decode (P := raw_platform false) (PC := bytes_converter)
         (mkSearchRequestDecoder (mkRelativeTime 5)) (incoming garbage_envelope 5))
  = Done None /\
  fst (DocsumRequestDecoder_decode (P := raw_platform false) (PC := bytes_converter)
         (mkDocsumRequestDecoder (mkRelativeTime 5)) (incoming garbage_envelope 5))
  = Done None.
Proof.
  pose proof
    (@decoders_contain_corruption
       (raw_platform false) bytes_converter
       (mkSearchRequestDecoder (mkRelativeTime 5))
       (mkDocsumRequestDecoder (mkRelativeTime 5))
       (incoming garbage_envelope 5))
    as (Hsearch & Hdocsum & _).
  split; [apply Hsearch; reflexivity | apply Hdocsum; reflexivity].
Defined.

(** A raw search call answered synchronously: the reply envelope is written
    with algorithm 0 and the declared size of its three bytes, and the call
    is returned once. *)
Example rpc_search_sync_raw_run :
  fst (rpc_search (P := raw_platform false) sync_search_server dispatch_world) = Done tt /\
  GetReturn (rpc (snd (rpc_search (P := raw_platform false) sync_search_server
                                  dispatch_world)))
  = [FRT_INT8 0; FRT_INT32 3; FRT_DATA [x0a; x68; x69]] /\
  ReturnCount (rpc (snd (rpc_search (P := raw_platform false) sync_search_server
                                    dispatch_world))) = 1%nat /\
  IsDetached (rpc (snd (rpc_search (P := raw_platform false) sync_search_server
                                   dispatch_world))) = true.
Proof. repeat split. Qed.

(** A well-formed ping reaches the monitor server and is answered through
    the handler. *)
Example rpc_ping_echo_run :
  GetReturn (rpc (snd (rpc_ping (P := raw_platform false) echo_monitor_server
                                (incoming good_envelope 5))))
  = [FRT_INT8 0; FRT_INT32 3; FRT_DATA [x0a; x68; x69]] /\
  GetError (rpc (snd (rpc_ping (P := raw_platform false) echo_monitor_server
                               (incoming good_envelope 5)))) = None /\
  finalize_count (snd (rpc_ping (P := raw_platform false) echo_monitor_server
                                (incoming good_envelope 5))) = 1%nat.
Proof. repeat split. Qed.

(** * Further properties *)

(** ** Bits of a mask *)

Lemma land_pow2_testbit (x k : Z) :
  0 <= k -> Z.land x (2 ^ k) = if Z.testbit x k then 2 ^ k else 0.
Proof.
  intros Hk. apply Z.bits_inj'. intros n Hn.
  rewrite Z.land_spec, Z.pow2_bits_eqb by exact Hk.
  destruct (Z.eqb_spec k n) as [Heq | Hne].
  - subst n. rewrite andb_true_r.
    destruct (Z.testbit x k) eqn:Hx.
    + rewrite Z.pow2_bits_true by exact Hk. reflexivity.
    + rewrite Z.bits_0. reflexivity.
  - rewrite andb_false_r.
    destruct (Z.testbit x k).
    + rewrite Z.pow2_bits_false by lia. reflexivity.
    + rewrite Z.bits_0. reflexivity.
Qed.

Lemma flag_is_set_iff_testbit (x k : Z) :
  0 <= k -> negb (Z.land x (2 ^ k) =? 0) = Z.testbit x k.
Proof.
  intros Hk. rewrite land_pow2_testbit by exact Hk.
  destruct (Z.testbit x k).
  - assert (Hpos : 0 < 2 ^ k) by (apply Z.pow_pos_nonneg; lia).
    destruct (Z.eqb_spec (2 ^ k) 0); [lia | reflexivity].
  - reflexivity.
Qed.

Lemma testbit_wrap32_lor (r flag n : Z) :
  0 <= n < 32 ->
  Z.testbit (wrap32 (Z.lor r flag)) n = Z.testbit r n || Z.testbit flag n.
Proof.
  intros Hn. unfold wrap32, wrap.
  rewrite Z.mod_pow2_bits_low by lia. apply Z.lor_spec.
Qed.

(** Or-ing flags into a 32-bit mask one after the other is or-ing their
    union into it. *)
Lemma wrap32_lor_lor (r a b : Z) :
  wrap32 (Z.lor (wrap32 (Z.lor r a)) b) = wrap32 (Z.lor r (Z.lor a b)).
Proof.
  unfold wrap32, wrap.
  apply Z.bits_inj'. intros n Hn.
  destruct (Z.ltb_spec n 32) as [Hlt | Hge].
  - rewrite !Z.mod_pow2_bits_low by lia.
    rewrite !Z.lor_spec, Z.mod_pow2_bits_low by lia.
    rewrite Z.lor_spec. symmetry. apply orb_assoc.
  - rewrite !Z.mod_pow2_bits_high by lia. reflexivity.
Qed.

(** ** Coverage: operations and the fields they write *)

Section CoverageOperations.
Import SearchReply.

Lemma CoverageField_eq_dec (f g : CoverageField) : {f = g} + {f <> g}.
Proof. decide equality. Qed.

(** X1.  Two Coverage operations that write different fields can be applied
    in either order. *)
Theorem Coverage_operations_commute (c : Coverage) (op1 op2 : CoverageOp) :
  written_field op1 <> written_field op2 ->
  apply_op op1 (apply_op op2 c) = apply_op op2 (apply_op op1 c).
Proof.
  intros Hfields.
  destruct op1, op2; simpl in Hfields; try congruence; reflexivity.
Qed.

Lemma Coverage_operations_commute_witness :
  apply_op (OpSetCovered 3) (apply_op OpDegradeTimeout (Coverage_active 7)) =
  apply_op OpDegradeTimeout (apply_op (OpSetCovered 3) (Coverage_active 7)).
Proof.
  apply (@Coverage_operations_commute (Coverage_active 7) (OpSetCovered 3) OpDegradeTimeout).
  simpl. discriminate.
Defined.

(** X2.  A Coverage operation changes no field but the one it writes; a
    setter called with a value of the field's width makes the field read back
    that value; and a setter discards whatever was written to its field just
    before, a degrade flag included. *)
Theorem Coverage_operation_writes_one_field
        (c : Coverage) (op op' : CoverageOp) (f : CoverageField) :
  (f <> written_field op -> read_field f (apply_op op c) = read_field f c) /\
  (is_setter op = true ->
   in_range (field_width (written_field op)) (setter_argument op) ->
   read_field (written_field op) (apply_op op c) = setter_argument op) /\
  (is_setter op = true ->
   written_field op' = written_field op ->
   apply_op op (apply_op op' c) = apply_op op c).
Proof.
  split; [| split].
  - intros Hf. destruct op, f; simpl in Hf; try congruence; reflexivity.
  - intros Hset Hrange.
    destruct op; simpl in Hset; try discriminate Hset; simpl in *;
      unfold getCovered, getActive, getSoonActive, getDegradeReason,
        getNodesQueried, getNodesReplied; simpl;
      apply wrap_small; exact Hrange.
  - intros Hset Hsame.
    destruct op; simpl in Hset; try discriminate Hset;
      destruct op'; simpl in Hsame; try discriminate Hsame; reflexivity.
Qed.

Lemma Coverage_operation_writes_one_field_witness :
  read_field FieldActive (apply_op (OpSetNodesReplied 3) (Coverage_active 7)) = 7 /\
  read_field FieldNodesReplied (apply_op (OpSetNodesReplied 3) (Coverage_active 7)) = 3 /\
  apply_op (OpSetDegradeReason 0) (apply_op OpDegradeTimeout (Coverage_active 7)) =
  apply_op (OpSetDegradeReason 0) (Coverage_active 7).
Proof.
  destruct (@Coverage_operation_writes_one_field
              (Coverage_active 7) (OpSetNodesReplied 3) (OpSetNodesQueried 1) FieldActive)
    as (Hframe & Hread & _).
  destruct (@Coverage_operation_writes_one_field
              (Coverage_active 7) (OpSetDegradeReason 0) OpDegradeTimeout FieldActive)
    as (_ & _ & Hover).
  split; [apply Hframe; discriminate |].
  split; [apply Hread; [reflexivity | unfold in_range; simpl; lia] |].
  apply Hover; reflexivity.
Defined.

(** *** Chains of degrade operations *)

Lemma apply_degrade (op : CoverageOp) (c : Coverage) :
  is_degrade op = true -> apply_op op c = or_degradeReason (degrade_flag op) c.
Proof. destruct op; simpl; intros H; try discriminate H; reflexivity. Qed.

Lemma degrade_flag_bits (op : CoverageOp) (n : Z) :
  is_degrade op = true ->
  Z.testbit (degrade_flag op) n =
  (is_degradeMatchPhase op && (n =? 0)) ||
  (is_degradeTimeout op && (n =? 1)) ||
  (is_degradeAdaptiveTimeout op && (n =? 2)).
Proof.
  intros Hop.
  destruct op; simpl in Hop; try discriminate Hop; simpl;
    rewrite ?orb_false_r.
  - change MATCH_PHASE with (2 ^ 0). rewrite Z.pow2_bits_eqb by lia. apply Z.eqb_sym.
  - change TIMEOUT with (2 ^ 1). rewrite Z.pow2_bits_eqb by lia. apply Z.eqb_sym.
  - change ADAPTIVE_TIMEOUT with (2 ^ 2). rewrite Z.pow2_bits_eqb by lia. apply Z.eqb_sym.
Qed.

(** Bit [n] of the mask after a chain of degrade operations: it was set
    before, or some operation of the chain sets it. *)
Lemma degrade_chain_bit (ops : list CoverageOp) (c : Coverage) (n : Z) :
  forallb is_degrade ops = true ->
  0 <= n < 32 ->
  Z.testbit (_degradeReason (apply_ops ops c)) n =
  Z.testbit (_degradeReason c) n ||
  existsb (fun op => Z.testbit (degrade_flag op) n) ops.
Proof.
  intros Hops Hn. revert c Hops.
  induction ops as [| op ops IH]; intros c Hops.
  - simpl. rewrite orb_false_r. reflexivity.
  - simpl in Hops. apply andb_prop in Hops. destruct Hops as [Hop Hops].
    unfold apply_ops in *. simpl.
    rewrite (IH _ Hops).
    rewrite (@apply_degrade op c Hop). simpl.
    rewrite testbit_wrap32_lor by exact Hn.
    rewrite orb_assoc. reflexivity.
Qed.

(** A chain of degrade operations leaves the counts alone. *)
Lemma degrade_chain_fields (ops : list CoverageOp) (c : Coverage) :
  forallb is_degrade ops = true ->
  apply_ops ops c =
  mkCoverage (_covered c) (_active c) (_soonActive c)
             (_degradeReason (apply_ops ops c))
             (_nodesQueried c) (_nodesReplied c).
Proof.
  intros Hops. revert c Hops.
  induction ops as [| op ops IH]; intros c Hops.
  - destruct c; reflexivity.
  - simpl in Hops. apply andb_prop in Hops. destruct Hops as [Hop Hops].
    unfold apply_ops in *. simpl.
    rewrite (IH _ Hops) at 1.
    rewrite (@apply_degrade op c Hop). reflexivity.
Qed.

Lemma apply_ops_well_formed (ops : list CoverageOp) (c : Coverage) :
  well_formed c -> well_formed (apply_ops ops c).
Proof.
  revert c. induction ops as [| op ops IH]; intros c Hwf; [exact Hwf |].
  unfold apply_ops in *. simpl. apply IH, apply_op_well_formed, Hwf.
Qed.

Lemma existsb_flag_bit (ops : list CoverageOp) (n : Z) :
  forallb is_degrade ops = true ->
  existsb (fun op => Z.testbit (degrade_flag op) n) ops =
  (existsb is_degradeMatchPhase ops && (n =? 0)) ||
  (existsb is_degradeTimeout ops && (n =? 1)) ||
  (existsb is_degradeAdaptiveTimeout ops && (n =? 2)).
Proof.
  induction ops as [| op ops IH]; intros Hops; [reflexivity |].
  simpl in Hops. apply andb_prop in Hops. destruct Hops as [Hop Hops].
  simpl. rewrite (IH Hops), (@degrade_flag_bits op n Hop).
  destruct (is_degradeMatchPhase op), (is_degradeTimeout op),
    (is_degradeAdaptiveTimeout op), (existsb is_degradeMatchPhase ops),
    (existsb is_degradeTimeout ops), (existsb is_degradeAdaptiveTimeout ops),
    (n =? 0), (n =? 1), (n =? 2); reflexivity.
Qed.

(** X3.  After any chain of degrade operations, [wasDegradedByMatchPhase]
    answers true exactly when it did before or [degradeMatchPhase] is in the
    chain, [wasDegradedByTimeout] likewise for [degradeTimeout], the
    adaptive-timeout bit likewise for [degradeAdaptiveTimeout] (which neither
    query reports), and no count has changed. *)
Theorem degrade_chain_queries (ops : list CoverageOp) (c : Coverage) :
  forallb is_degrade ops = true ->
  wasDegradedByMatchPhase (apply_ops ops c) =
  wasDegradedByMatchPhase c || existsb is_degradeMatchPhase ops /\
  wasDegradedByTimeout (apply_ops ops c) =
  wasDegradedByTimeout c || existsb is_degradeTimeout ops /\
  Z.testbit (getDegradeReason (apply_ops ops c)) 2 =
  Z.testbit (getDegradeReason c) 2 || existsb is_degradeAdaptiveTimeout ops /\
  (forall f, f <> FieldDegradeReason ->
             read_field f (apply_ops ops c) = read_field f c).
Proof.
  intros Hops.
  unfold wasDegradedByMatchPhase, wasDegradedByTimeout, getDegradeReason.
  change MATCH_PHASE with (2 ^ 0). change TIMEOUT with (2 ^ 1).
  rewrite !flag_is_set_iff_testbit by lia.
  rewrite !(@degrade_chain_bit ops) by (exact Hops || lia).
  rewrite !(@existsb_flag_bit ops _ Hops). simpl.
  rewrite !andb_false_r, !andb_true_r, !orb_false_r.
  repeat split.
  intros f Hf. rewrite (@degrade_chain_fields ops c Hops).
  destruct f; try reflexivity. congruence.
Qed.

Lemma degrade_chain_queries_witness :
  wasDegradedByTimeout
    (apply_ops [OpDegradeAdaptiveTimeout; OpDegradeTimeout] (Coverage_active 7)) = true /\
  wasDegradedByMatchPhase
    (apply_ops [OpDegradeAdaptiveTimeout; OpDegradeTimeout] (Coverage_active 7)) = false.
Proof.
  destruct (@degrade_chain_queries
              [OpDegradeAdaptiveTimeout; OpDegradeTimeout] (Coverage_active 7) eq_refl)
    as (Hmatch & Htimeout & _).
  split; [rewrite Htimeout | rewrite Hmatch]; reflexivity.
Defined.

(** X4.  On a well-formed Coverage, two chains of degrade operations that
    contain the same operations, in whatever order and however often, give
    the same record. *)
Theorem degrade_chain_order_irrelevant (ops ops' : list CoverageOp) (c : Coverage) :
  well_formed c ->
  forallb is_degrade ops = true ->
  forallb is_degrade ops' = true ->
  (forall op, In op ops <-> In op ops') ->
  apply_ops ops c = apply_ops ops' c.
Proof.
  intros Hwf Hops Hops' Hsame.
  rewrite (@degrade_chain_fields ops c Hops), (@degrade_chain_fields ops' c Hops').
  f_equal.
  apply Z.bits_inj'. intros n Hn.
  destruct (Z.ltb_spec n 32) as [Hlt | Hge].
  - rewrite !degrade_chain_bit by (assumption || lia).
    f_equal.
    apply eq_true_iff_eq. rewrite !existsb_exists.
    split; intros (op & Hin & Hbit); exists op; (split; [apply Hsame, Hin | exact Hbit]).
  - destruct (@apply_ops_well_formed ops c Hwf) as (_ & _ & _ & Hm & _).
    destruct (@apply_ops_well_formed ops' c Hwf) as (_ & _ & _ & Hm' & _).
    rewrite (@testbit_beyond_width 32 _ n) by (lia || assumption).
    rewrite (@testbit_beyond_width 32 _ n) by (lia || assumption).
    reflexivity.
Qed.

Lemma degrade_chain_order_irrelevant_witness :
  apply_ops [OpDegradeTimeout; OpDegradeMatchPhase; OpDegradeTimeout] (Coverage_active 7) =
  apply_ops [OpDegradeMatchPhase; OpDegradeTimeout] (Coverage_active 7).
Proof.
  apply (@degrade_chain_order_irrelevant
           [OpDegradeTimeout; OpDegradeMatchPhase; OpDegradeTimeout]
           [OpDegradeMatchPhase; OpDegradeTimeout] (Coverage_active 7)).
  - apply Coverage_active_well_formed.
  - reflexivity.
  - reflexivity.
  - intros op; simpl; tauto.
Defined.
End CoverageOperations.

(** ** Hit: the distribution key *)

Lemma to_int32_range (z : Z) : - 2 ^ 31 <= to_int32 z < 2 ^ 31.
Proof.
  unfold to_int32.
  pose proof (Z.mod_pos_bound (z + 2 ^ 31) (2 ^ 32) ltac:(lia)). lia.
Qed.

Lemma wrap32_to_int32 (z : Z) : wrap32 (to_int32 z) = wrap32 z.
Proof.
  unfold wrap32, wrap, to_int32.
  rewrite <- Zminus_mod_idemp_l.
  rewrite Z.mod_mod by lia.
  rewrite Zminus_mod_idemp_l.
  replace (z + 2 ^ 31 - 2 ^ 31) with z by lia. reflexivity.
Qed.

Section HitFacts.
Variables (GlobalId HitRank : Type).

(** X5.  The distribution key of a hit is set from a [uint32_t], kept in an
    [int32_t] and read back as a [uint32_t]: every 32-bit key reads back
    unchanged, although keys from [2^31] on are held as negative numbers;
    setting the key changes nothing else, and a default hit has key 0. *)
Theorem Hit_distributionKey_roundtrip
        (h : Hit.Hit GlobalId HitRank) (key : Z)
        (gid_default : GlobalId) (metric_zero : HitRank) :
  in_range 32 key ->
  Hit.getDistributionKey (Hit.setDistributionKey key h) = key /\
  (2 ^ 31 <= key -> Hit._distributionKey (Hit.setDistributionKey key h) = key - 2 ^ 32) /\
  Hit.gid (Hit.setDistributionKey key h) = Hit.gid h /\
  Hit.metric (Hit.setDistributionKey key h) = Hit.metric h /\
  Hit.path (Hit.setDistributionKey key h) = Hit.path h /\
  Hit.getDistributionKey (Hit.Hit_default gid_default metric_zero) = 0.
Proof.
  intros Hkey.
  unfold Hit.getDistributionKey, Hit.setDistributionKey; simpl.
  rewrite wrap32_to_int32.
  unfold wrap32. rewrite wrap_idempotent by lia.
  rewrite (wrap_small Hkey).
  repeat split.
  intros Hbig. unfold to_int32, in_range in *.
  replace (key + 2 ^ 31) with (key - 2 ^ 31 + 1 * 2 ^ 32) by lia.
  rewrite Z.mod_add by lia.
  rewrite Z.mod_small by lia. lia.
Qed.
End HitFacts.

Lemma Hit_distributionKey_roundtrip_witness :
  Hit.getDistributionKey
    (Hit.setDistributionKey 4294967295 (Hit.Hit_default tt 0)) = 4294967295 /\
  Hit._distributionKey
    (Hit.setDistributionKey 4294967295 (Hit.Hit_default tt 0)) = -1.
Proof.
  assert (Hr : in_range 32 4294967295) by (unfold in_range; lia).
  destruct (@Hit_distributionKey_roundtrip
              unit Z (Hit.Hit_default tt 0) 4294967295 tt 0 Hr)
    as (Hget & Hneg & _).
  split; [exact Hget |].
  rewrite Hneg by lia. reflexivity.
Defined.

(** ** The envelope on the wire *)

Lemma GetTypeString_app (a b : FRT_Values) :
  GetTypeString (a ++ b) = (GetTypeString a ++ GetTypeString b)%string.
Proof.
  unfold GetTypeString.
  induction a as [| v a IH]; simpl; [reflexivity |].
  rewrite IH. reflexivity.
Qed.

Section EnvelopeFacts.
Context {P : Platform} {MSG : Type} {PM : ProtoMessage MSG}.

(** X6.  Whatever the message, the settings and the values already present,
    [encode_message] appends exactly three values of shape [bix]: one of the
    wire codes 0, 6 and 7, then the size, then the bytes [compress] produced. *)
Theorem encode_message_appends_bix
        (s : FS4PersistentPacketStreamer) (src : MSG) (dst : FRT_Values) :
  GetTypeString (encode_message s src dst) = (GetTypeString dst ++ "bix")%string /\
  List.length (encode_message s src dst) = (List.length dst + 3)%nat /\
  firstn (List.length dst) (encode_message s src dst) = dst /\
  (exists code, In code [0; 6; 7] /\
                nth_error (encode_message s src dst) (List.length dst)
                = Some (FRT_INT8 code)) /\
  nth_error (encode_message s src dst) (List.length dst + 2)
  = Some (FRT_DATA (snd (compress (get_compression_config s) (SerializeAsString src)))).
Proof.
  rewrite encode_message_appends.
  split; [rewrite GetTypeString_app; reflexivity |].
  split; [rewrite length_app; reflexivity |].
  split; [rewrite firstn_app, firstn_all, Nat.sub_diag; simpl; apply app_nil_r |].
  split.
  - exists (type_code (fst (compress (get_compression_config s) (SerializeAsString src)))).
    split.
    + destruct (fst (compress (get_compression_config s) (SerializeAsString src)));
        simpl; tauto.
    + rewrite nth_error_app2 by lia. rewrite Nat.sub_diag. reflexivity.
  - rewrite nth_error_app2 by lia.
    rewrite Nat.add_comm, Nat.add_sub. reflexivity.
Qed.

(** Decoding what was encoded into an empty list, with the trace it leaves. *)
Lemma decode_encode_run (s : FS4PersistentPacketStreamer) (m : MSG) (w : World) :
  codec_roundtrips s m ->
  decode_message (encode_message s m []) w =
  (Done (Some m),
   traced [EvDecompress (snd (compress (get_compression_config s) (SerializeAsString m)));
           EvParse (SerializeAsString m)] w).
Proof.
  intros (Hsize & Htype & Hdec & Hparse).
  rewrite encode_message_appends. simpl app.
  assert (Hwrap : wrap32 (size (SerializeAsString m)) = size (SerializeAsString m)).
  { unfold wrap32. apply wrap_small. unfold in_range, size in *. lia. }
  rewrite Hwrap.
  rewrite (@decode_message_decompressed P MSG PM _ _ _ (SerializeAsString m)).
  - rewrite Z.eqb_refl, orb_true_r, Hparse. reflexivity.
  - rewrite Htype. exact Hdec.
Qed.

Lemma encoded_is_bix (s : FS4PersistentPacketStreamer) (m : MSG) :
  GetTypeString (encode_message s m []) = "bix"%string.
Proof. rewrite encode_message_appends. reflexivity. Qed.
End EnvelopeFacts.

(** ** Calls across the wire *)

Section WireFacts.
Context {P : Platform} {PC : ProtoConverter}.

(** *** What a completion handler leaves in the call *)

Lemma searchDone_call (reply : SearchReply) (w : World) :
  searchDone reply w =
  (Done tt,
   mkWorld (mkRequest (GetMethodName (rpc w)) (GetParams (rpc w))
                      (encode_message (streamer w) (search_reply_to_proto reply)
                                      (GetReturn (rpc w)))
                      (GetError (rpc w)) (IsDetached (rpc w)) (S (ReturnCount (rpc w))))
           (now w) (streamer w) (trace w ++ [EvSearchDone])).
Proof. reflexivity. Qed.

Lemma getDocsumsDone_call (reply : DocsumReply) (w : World) :
  getDocsumsDone reply w =
  (Done tt,
   mkWorld (mkRequest (GetMethodName (rpc w)) (GetParams (rpc w))
                      (encode_message (streamer w) (docsum_reply_to_proto reply)
                                      (GetReturn (rpc w)))
                      (GetError (rpc w)) (IsDetached (rpc w)) (S (ReturnCount (rpc w))))
           (now w) (streamer w) (trace w ++ [EvGetDocsumsDone])).
Proof. reflexivity. Qed.

Lemma pingDone_call (reply : MonitorReply) (w : World) :
  pingDone reply w =
  (Done tt,
   mkWorld (mkRequest (GetMethodName (rpc w)) (GetParams (rpc w))
                      (encode_message (streamer w) (monitor_reply_to_proto reply)
                                      (GetReturn (rpc w)))
                      (GetError (rpc w)) (IsDetached (rpc w)) (S (ReturnCount (rpc w))))
           (now w) (streamer w) (trace w ++ [EvPingDone])).
Proof. reflexivity. Qed.

(** *** Client-side decoding of an envelope *)

Lemma decode_search_reply_envelope
      (s : FS4PersistentPacketStreamer) (m : ProtoSearchReply) (wc : World) :
  codec_roundtrips s m ->
  GetReturn (rpc wc) = encode_message s m [] ->
  fst (decode_search_reply wc) = Done (Some m).
Proof.
  intros Hrt Hret.
  unfold decode_search_reply, bind, get_world, CheckReturnTypes. cbv beta iota.
  rewrite Hret, encoded_is_bix, String.eqb_refl.
  rewrite (decode_encode_run wc Hrt). reflexivity.
Qed.

Lemma decode_docsum_reply_envelope
      (s : FS4PersistentPacketStreamer) (m : ProtoDocsumReply) (wc : World) :
  codec_roundtrips s m ->
  GetReturn (rpc wc) = encode_message s m [] ->
  fst (decode_docsum_reply wc) = Done (Some m).
Proof.
  intros Hrt Hret.
  unfold decode_docsum_reply, bind, get_world, CheckReturnTypes. cbv beta iota.
  rewrite Hret, encoded_is_bix, String.eqb_refl.
  rewrite (decode_encode_run wc Hrt). reflexivity.
Qed.

Lemma decode_monitor_reply_envelope
      (s : FS4PersistentPacketStreamer) (m : ProtoMonitorReply) (wc : World) :
  codec_roundtrips s m ->
  GetReturn (rpc wc) = encode_message s m [] ->
  fst (decode_monitor_reply wc) = Done (Some m).
Proof.
  intros Hrt Hret.
  unfold decode_monitor_reply, bind, get_world, CheckReturnTypes. cbv beta iota.
  rewrite Hret, encoded_is_bix, String.eqb_refl.
  rewrite (decode_encode_run wc Hrt). reflexivity.
Qed.

(** X7.  A reply completed by the server-side handler on a call without
    return values decodes on the client, from the same return values, to the
    wire message of that reply, for each of the three kinds, when the codec
    parts undo each other on it under the server's settings. *)
Theorem handler_reply_reaches_client
        (w wc : World) (rs : SearchReply) (rd : DocsumReply) (rm : MonitorReply) :
  GetReturn (rpc w) = [] ->
  (codec_roundtrips (streamer w) (search_reply_to_proto rs) ->
   GetReturn (rpc wc) = GetReturn (rpc (snd (searchDone rs w))) ->
   fst (decode_search_reply wc) = Done (Some (search_reply_to_proto rs))) /\
  (codec_roundtrips (streamer w) (docsum_reply_to_proto rd) ->
   GetReturn (rpc wc) = GetReturn (rpc (snd (getDocsumsDone rd w))) ->
   fst (decode_docsum_reply wc) = Done (Some (docsum_reply_to_proto rd))) /\
  (codec_roundtrips (streamer w) (monitor_reply_to_proto rm) ->
   GetReturn (rpc wc) = GetReturn (rpc (snd (pingDone rm w))) ->
   fst (decode_monitor_reply wc) = Done (Some (monitor_reply_to_proto rm))).
Proof.
  intros Hempty.
  split; [| split]; intros Hrt Hret.
  - rewrite searchDone_call in Hret. simpl in Hret. rewrite Hempty in Hret.
    exact (@decode_search_reply_envelope _ _ wc Hrt Hret).
  - rewrite getDocsumsDone_call in Hret. simpl in Hret. rewrite Hempty in Hret.
    exact (@decode_docsum_reply_envelope _ _ wc Hrt Hret).
  - rewrite pingDone_call in Hret. simpl in Hret. rewrite Hempty in Hret.
    exact (@decode_monitor_reply_envelope _ _ wc Hrt Hret).
Qed.

(** X8.  A request the client encoded into a call without parameters is
    addressed to the search (docsum) method, and the server-side decoder,
    run on the same parameters in any world, returns the request projected
    from exactly that message, with the decoder's clock. *)
Theorem client_request_reaches_decoder
        (w ws : World) (ms : ProtoSearchRequest) (md : ProtoDocsumRequest)
        (ds : SearchRequestDecoder) (dd : DocsumRequestDecoder) :
  GetParams (rpc w) = [] ->
  (codec_roundtrips (streamer w) ms ->
   GetParams (rpc ws) = GetParams (rpc (snd (encode_search_request ms w))) ->
   GetMethodName (rpc (snd (encode_search_request ms w)))
   = "vespa.searchprotocol.search"%string /\
   fst (SearchRequestDecoder_decode ds ws) =
   Done (Some (mkSearchRequest (search_decoder_relative_time ds)
                               (search_request_from_proto ms SearchBody_default)))) /\
  (codec_roundtrips (streamer w) md ->
   GetParams (rpc ws) = GetParams (rpc (snd (encode_docsum_request md w))) ->
   GetMethodName (rpc (snd (encode_docsum_request md w)))
   = "vespa.searchprotocol.getDocsums"%string /\
   fst (DocsumRequestDecoder_decode dd ws) =
   Done (Some (mkDocsumRequest (docsum_decoder_relative_time dd)
                               (docsum_request_from_proto md (DocsumBody_default true))))).
Proof.
  intros Hempty.
  split; intros Hrt Hparams; (split; [reflexivity |]).
  - simpl in Hparams. rewrite Hempty in Hparams.
    unfold SearchRequestDecoder_decode, bind, get_world. cbv beta iota.
    rewrite Hparams, (decode_encode_run ws Hrt). reflexivity.
  - simpl in Hparams. rewrite Hempty in Hparams.
    unfold DocsumRequestDecoder_decode, bind, get_world. cbv beta iota.
    rewrite Hparams, (decode_encode_run ws Hrt). reflexivity.
Qed.
End WireFacts.

Section PingFacts.
Context {P : Platform} {PC : ProtoConverter}.

(** [rpc_ping], by the outcome of decoding and of the server's run. *)
Lemma rpc_ping_unfold (server : MonitorServer) (w : World) :
  rpc_ping server w =
  match decode_message (MSG := ProtoMonitorRequest) (GetParams (rpc w)) (detached w) with
  | (Done (Some msg), w0) =>
      match server (monitor_request_from_proto msg MonitorRequest_default) pingDone w0 with
      | (Done (Some rep), w1) => pingDone rep w1
      | (Done None, w1) => (Done tt, w1)
      | (AssertionFailed, w1) => (AssertionFailed, w1)
      | (Thrown, w1) => (Thrown, w1)
      | (UndefinedRead, w1) => (UndefinedRead, w1)
      end
  | (Done None, w0) =>
      Return (snd (SetError FRTE_RPC_METHOD_FAILED "malformed monitor request"
                (snd (LOG_warning
                        "got bad protobuf monitor request over rpc (unable to decode)"
                        w0))))
  | (AssertionFailed, w0) => (AssertionFailed, w0)
  | (Thrown, w0) => (Thrown, w0)
  | (UndefinedRead, w0) => (UndefinedRead, w0)
  end.
Proof.
  unfold rpc_ping, bind.
  change (Detach w) with (Done tt, detached w). cbv beta iota.
  unfold get_world at 1. cbv beta iota.
  change (GetParams (rpc (detached w))) with (GetParams (rpc w)).
  destruct (decode_message (GetParams (rpc w)) (detached w)) as [[[msg |] | | |] w0];
    try reflexivity.
  destruct (server _ _ w0) as [[[rep |] | | |] w1]; reflexivity.
Qed.



(** X10.  A whole ping call.  The client encodes [m] into a call without
    parameters; the server side receives these parameters in a call without
    return values; the monitor server answers [rep] synchronously and leaves
    the return values empty.  Then the monitor server was run on the request
    projected from [m], the call is returned with no error set by the
    adapter, and the client decodes the return values to the wire message of
    [rep]. *)
Theorem ping_call_roundtrip
        (server : MonitorServer) (wc ws w1 wr : World)
        (m : ProtoMonitorRequest) (rep : MonitorReply) :
  GetParams (rpc wc) = [] ->
  codec_roundtrips (streamer wc) m ->
  GetParams (rpc ws) = GetParams (rpc (snd (encode_monitor_request m wc))) ->
  server (monitor_request_from_proto m MonitorRequest_default) pingDone
         (snd (decode_message (MSG := ProtoMonitorRequest) (GetParams (rpc ws))
                              (detached ws)))
  = (Done (Some rep), w1) ->
  GetReturn (rpc w1) = [] ->
  codec_roundtrips (streamer w1) (monitor_reply_to_proto rep) ->
  GetReturn (rpc wr) = GetReturn (rpc (snd (rpc_ping server ws))) ->
  GetMethodName (rpc (snd (encode_monitor_request m wc)))
  = "vespa.searchprotocol.ping"%string /\
  fst (rpc_ping server ws) = Done tt /\
  ReturnCount (rpc (snd (rpc_ping server ws))) = S (ReturnCount (rpc w1)) /\
  GetError (rpc (snd (rpc_ping server ws))) = GetError (rpc w1) /\
  fst (decode_monitor_reply wr) = Done (Some (monitor_reply_to_proto rep)).
Proof.
  intros Hempty Hrt Hparams Hrun Hret Hrt' Hwire.
  split; [reflexivity |].
  simpl in Hparams. rewrite Hempty in Hparams.
  rewrite rpc_ping_unfold in *.
  rewrite Hparams in *.
  rewrite (decode_encode_run (detached ws) Hrt) in *.
  simpl snd in Hrun. rewrite Hrun in *.
  rewrite pingDone_call in *. simpl in Hwire. simpl.
  repeat split.
  rewrite Hret in Hwire.
  exact (@decode_monitor_reply_envelope _ _ _ _ wr Hrt' Hwire).
Qed.
End PingFacts.

Section DecoderFacts.
Context {P : Platform} {PC : ProtoConverter}.

Lemma SearchRequestDecoder_decode_trace (d : SearchRequestDecoder) (w : World) :
  exists es,
    snd (SearchRequestDecoder_decode d w) = traced es w /\
    filter is_done es = [] /\
    (fst (SearchRequestDecoder_decode d w) = Done None ->
     exists es',
       es = es' ++ [EvWarning "got bad protobuf search request over rpc (unable to decode)"]).
Proof.
  destruct (decode_message_frame (MSG := ProtoSearchRequest) (GetParams (rpc w)) w)
    as (es & Hw & Hes).
  unfold SearchRequestDecoder_decode, bind, get_world. cbv beta iota.
  destruct (decode_message (GetParams (rpc w)) w) as [r w1].
  simpl in Hw. subst w1.
  destruct r as [[msg |] | | |]; cbv beta iota.
  - exists es. simpl. repeat split; [exact Hes | discriminate].
  - exists (es ++ [EvWarning "got bad protobuf search request over rpc (unable to decode)"]).
    simpl. unfold traced; simpl. rewrite <- app_assoc.
    split; [reflexivity |].
    split; [rewrite filter_app, Hes; reflexivity |].
    intros _. exists es. reflexivity.
  - exists es. simpl. repeat split; [exact Hes | discriminate].
  - exists es. simpl. repeat split; [exact Hes | discriminate].
  - exists es. simpl. repeat split; [exact Hes | discriminate].
Qed.

Lemma DocsumRequestDecoder_decode_trace (d : DocsumRequestDecoder) (w : World) :
  exists es,
    snd (DocsumRequestDecoder_decode d w) = traced es w /\
    filter is_done es = [] /\
    (fst (DocsumRequestDecoder_decode d w) = Done None ->
     exists es',
       es = es' ++ [EvWarning "got bad protobuf docsum request over rpc (unable to decode)"]).
Proof.
  destruct (decode_message_frame (MSG := ProtoDocsumRequest) (GetParams (rpc w)) w)
    as (es & Hw & Hes).
  unfold DocsumRequestDecoder_decode, bind, get_world. cbv beta iota.
  destruct (decode_message (GetParams (rpc w)) w) as [r w1].
  simpl in Hw. subst w1.
  destruct r as [[msg |] | | |]; cbv beta iota.
  - exists es. simpl. repeat split; [exact Hes | discriminate].
  - exists (es ++ [EvWarning "got bad protobuf docsum request over rpc (unable to decode)"]).
    simpl. unfold traced; simpl. rewrite <- app_assoc.
    split; [reflexivity |].
    split; [rewrite filter_app, Hes; reflexivity |].
    intros _. exists es. reflexivity.
  - exists es. simpl. repeat split; [exact Hes | discriminate].
  - exists es. simpl. repeat split; [exact Hes | discriminate].
  - exists es. simpl. repeat split; [exact Hes | discriminate].
Qed.

(** X11.  However it ends, [decode] of the search and of the docsum decoder
    leaves the call as it found it (no error set, nothing returned, no return
    value written), runs no completion handler and touches neither the clock
    nor the compression settings; it only adds to the trace, and when it
    returns null the last thing it added is its warning. *)
Theorem decoders_only_log
        (ds : SearchRequestDecoder) (dd : DocsumRequestDecoder) (w : World) :
  (rpc (snd (SearchRequestDecoder_decode ds w)) = rpc w /\
   now (snd (SearchRequestDecoder_decode ds w)) = now w /\
   streamer (snd (SearchRequestDecoder_decode ds w)) = streamer w /\
   finalize_count (snd (SearchRequestDecoder_decode ds w)) = finalize_count w /\
   (fst (SearchRequestDecoder_decode ds w) = Done None ->
    exists es,
      trace (snd (SearchRequestDecoder_decode ds w)) =
      trace w ++ es ++
      [EvWarning "got bad protobuf search request over rpc (unable to decode)"])) /\
  (rpc (snd (DocsumRequestDecoder_decode dd w)) = rpc w /\
   now (snd (DocsumRequestDecoder_decode dd w)) = now w /\
   streamer (snd (DocsumRequestDecoder_decode dd w)) = streamer w /\
   finalize_count (snd (DocsumRequestDecoder_decode dd w)) = finalize_count w /\
   (fst (DocsumRequestDecoder_decode dd w) = Done None ->
    exists es,
      trace (snd (DocsumRequestDecoder_decode dd w)) =
      trace w ++ es ++
      [EvWarning "got bad protobuf docsum request over rpc (unable to decode)"])).
Proof.
  destruct (SearchRequestDecoder_decode_trace ds w) as (es & Hw & Hes & Hwarn).
  destruct (DocsumRequestDecoder_decode_trace dd w) as (es' & Hw' & Hes' & Hwarn').
  rewrite Hw, Hw', !finalize_count_traced, Hes, Hes'. simpl.
  repeat split; try lia.
  - intros Hnull. destruct (Hwarn Hnull) as (pre & Hpre).
    exists pre. rewrite Hpre. reflexivity.
  - intros Hnull. destruct (Hwarn' Hnull) as (pre & Hpre).
    exists pre. rewrite Hpre. reflexivity.
Qed.
End DecoderFacts.

(** ** The method table and the client encoders *)

Section MethodTableFacts.
Context {P : Platform} {PC : ProtoConverter}.

Lemma ProtoRpcAdapter_register_entries (orb : FRT_ReflectionBuilder) :
  ProtoRpcAdapter_register orb = ping_entry :: getDocsums_entry :: search_entry :: orb.
Proof. vm_compute. reflexivity. Qed.

Lemma lookup_method_cons (name : string) (m : FRT_Method) (rb : FRT_ReflectionBuilder) :
  lookup_method name (m :: rb) =
  if String.eqb name (method_name m) then Some m else lookup_method name rb.
Proof. reflexivity. Qed.

Lemma lookup_search_entry (orb : FRT_ReflectionBuilder) :
  lookup_method "vespa.searchprotocol.search" (ProtoRpcAdapter_register orb)
  = Some search_entry.
Proof. rewrite ProtoRpcAdapter_register_entries. vm_compute. reflexivity. Qed.

Lemma lookup_getDocsums_entry (orb : FRT_ReflectionBuilder) :
  lookup_method "vespa.searchprotocol.getDocsums" (ProtoRpcAdapter_register orb)
  = Some getDocsums_entry.
Proof. rewrite ProtoRpcAdapter_register_entries. vm_compute. reflexivity. Qed.

Lemma lookup_ping_entry (orb : FRT_ReflectionBuilder) :
  lookup_method "vespa.searchprotocol.ping" (ProtoRpcAdapter_register orb)
  = Some ping_entry.
Proof. rewrite ProtoRpcAdapter_register_entries. vm_compute. reflexivity. Qed.

Lemma entry_serves_envelope (m : FRT_Method) (handler : MethodHandler)
      (MSG : Type) (PM : ProtoMessage MSG) (s : FS4PersistentPacketStreamer) (src : MSG) :
  method_handler m = handler ->
  method_paramSpec m = "bix"%string ->
  method_returnSpec m = "bix"%string ->
  List.length (method_params m) = 3%nat ->
  List.length (method_returns m) = 3%nat ->
  serves m handler (encode_message s src []).
Proof.
  intros Hh Hp Hr Hlp Hlr. unfold serves.
  rewrite encoded_is_bix, Hp, Hr, Hlp, Hlr. repeat split. exact Hh.
Qed.

(** X13.  Whatever methods the supervisor already has, after the constructor
    the name each client encoder puts on a call selects the method handled by
    the matching [rpc_] function, whose registered parameter shape is the
    shape of what the encoder wrote into a call without parameters and whose
    return shape is [bix]; every other name selects what it selected
    before. *)
Theorem registered_methods_serve_client_calls
        (orb : FRT_ReflectionBuilder) (w : World)
        (ms : ProtoSearchRequest) (md : ProtoDocsumRequest) (mm : ProtoMonitorRequest) :
  GetParams (rpc w) = [] ->
  (exists m,
      lookup_method (GetMethodName (rpc (snd (encode_search_request ms w))))
                    (ProtoRpcAdapter_register orb) = Some m /\
      serves m Handler_rpc_search (GetParams (rpc (snd (encode_search_request ms w))))) /\
  (exists m,
      lookup_method (GetMethodName (rpc (snd (encode_docsum_request md w))))
                    (ProtoRpcAdapter_register orb) = Some m /\
      serves m Handler_rpc_getDocsums
             (GetParams (rpc (snd (encode_docsum_request md w))))) /\
  (exists m,
      lookup_method (GetMethodName (rpc (snd (encode_monitor_request mm w))))
                    (ProtoRpcAdapter_register orb) = Some m /\
      serves m Handler_rpc_ping (GetParams (rpc (snd (encode_monitor_request mm w))))) /\
  (forall name,
      name <> "vespa.searchprotocol.search"%string ->
      name <> "vespa.searchprotocol.getDocsums"%string ->
      name <> "vespa.searchprotocol.ping"%string ->
      lookup_method name (ProtoRpcAdapter_register orb) = lookup_method name orb).
Proof.
  intros Hempty.
  split; [| split; [| split]].
  - exists search_entry.
    change (GetMethodName (rpc (snd (encode_search_request ms w))))
      with "vespa.searchprotocol.search"%string.
    change (GetParams (rpc (snd (encode_search_request ms w))))
      with (encode_message (streamer w) ms (GetParams (rpc w))).
    rewrite Hempty.
    split; [apply lookup_search_entry | apply entry_serves_envelope; reflexivity].
  - exists getDocsums_entry.
    change (GetMethodName (rpc (snd (encode_docsum_request md w))))
      with "vespa.searchprotocol.getDocsums"%string.
    change (GetParams (rpc (snd (encode_docsum_request md w))))
      with (encode_message (streamer w) md (GetParams (rpc w))).
    rewrite Hempty.
    split; [apply lookup_getDocsums_entry | apply entry_serves_envelope; reflexivity].
  - exists ping_entry.
    change (GetMethodName (rpc (snd (encode_monitor_request mm w))))
      with "vespa.searchprotocol.ping"%string.
    change (GetParams (rpc (snd (encode_monitor_request mm w))))
      with (encode_message (streamer w) mm (GetParams (rpc w))).
    rewrite Hempty.
    split; [apply lookup_ping_entry | apply entry_serves_envelope; reflexivity].
  - intros name Hs Hd Hp.
    apply String.eqb_neq in Hs, Hd, Hp.
    rewrite ProtoRpcAdapter_register_entries, !lookup_method_cons.
    change (method_name ping_entry) with "vespa.searchprotocol.ping"%string.
    change (method_name getDocsums_entry) with "vespa.searchprotocol.getDocsums"%string.
    change (method_name search_entry) with "vespa.searchprotocol.search"%string.
    rewrite Hs, Hd, Hp. reflexivity.
Qed.
End MethodTableFacts.

(** ** Further runs on concrete calls *)

Lemma tagged_roundtrips (s : FS4PersistentPacketStreamer) (m : bytes) :
  size (x0a :: m) < 2 ^ 32 ->
  codec_roundtrips (P := raw_platform false) (PM := tagged_message) s m.
Proof.
  intros Hsize. unfold codec_roundtrips; simpl.
  repeat split. exact Hsize.
Qed.

Lemma handler_reply_reaches_client_witness :
  fst (decode_search_reply (P := raw_platform false) (PC := bytes_converter)
         (completed good_envelope)) = Done (Some [x68; x69]).
Proof.
  destruct (@handler_reply_reaches_client
              (raw_platform false) bytes_converter
              (incoming good_envelope 5) (completed good_envelope)
              [x68; x69] [] [] eq_refl)
    as (Hsearch & _).
  apply Hsearch.
  - apply tagged_roundtrips. vm_compute. reflexivity.
  - reflexivity.
Defined.

Lemma client_request_reaches_decoder_witness :
  fst (SearchRequestDecoder_decode (P := raw_platform false) (PC := bytes_converter)
         (mkSearchRequestDecoder (mkRelativeTime 5)) dispatch_world)
  = Done (Some (mkSearchRequest (PC := bytes_converter) (mkRelativeTime 5) [x68; x69])).
Proof.
  destruct (@client_request_reaches_decoder
              (raw_platform false) bytes_converter
              (incoming [] 0) dispatch_world [x68; x69] []
              (mkSearchRequestDecoder (mkRelativeTime 5))
              (mkDocsumRequestDecoder (mkRelativeTime 5)) eq_refl)
    as (Hsearch & _).
  apply Hsearch.
  - apply tagged_roundtrips. vm_compute. reflexivity.
  - reflexivity.
Defined.


Lemma ping_call_roundtrip_witness :
  fst (decode_monitor_reply (P := raw_platform false) (PC := bytes_converter)
         (completed good_envelope)) = Done (Some [x68; x69]).
Proof.
  destruct (@ping_call_roundtrip
              (raw_platform false) bytes_converter echo_monitor_server
              (incoming [] 0) (incoming good_envelope 5)
              (snd (decode_message (P := raw_platform false) (PM := tagged_message)
                      good_envelope (detached (incoming good_envelope 5))))
              (completed good_envelope)
              [x68; x69] [x68; x69])
    as (_ & _ & _ & _ & Hreply);
    [ reflexivity
    | apply tagged_roundtrips; vm_compute; reflexivity
    | reflexivity
    | reflexivity
    | reflexivity
    | apply tagged_roundtrips; vm_compute; reflexivity
    | reflexivity
    | exact Hreply ].
Defined.

Lemma registered_methods_serve_client_calls_witness :
  lookup_method "vespa.searchprotocol.ping" (ProtoRpcAdapter_register []) <> None /\
  lookup_method "vespa.searchprotocol.other" (ProtoRpcAdapter_register []) = None.
Proof.
  destruct (@registered_methods_serve_client_calls
              (raw_platform false) bytes_converter [] (incoming [] 0) [] [] [] eq_refl)
    as (_ & _ & (m & Hm & _) & Hother).
  split.
  - change (GetMethodName (rpc (snd (encode_monitor_request
                                     (P := raw_platform false) (PC := bytes_converter)
                                     [] (incoming [] 0)))))
      with "vespa.searchprotocol.ping"%string in Hm.
    rewrite Hm. discriminate.
  - rewrite Hother; [reflexivity | | |]; intros Heq; vm_compute in Heq; discriminate Heq.
Defined.

Lemma decoders_only_log_witness :
  trace (snd (SearchRequestDecoder_decode (P := raw_platform false) (PC := bytes_converter)
                (mkSearchRequestDecoder (mkRelativeTime 5)) (incoming garbage_envelope 5)))
  = [EvDecompress [xff; xfe; xfd]; EvParse [xff; xfe; xfd];
     EvWarning "got bad protobuf search request over rpc (unable to decode)"] /\
  rpc (snd (SearchRequestDecoder_decode (P := raw_platform false) (PC := bytes_converter)
              (mkSearchRequestDecoder (mkRelativeTime 5)) (incoming garbage_envelope 5)))
  = rpc (incoming garbage_envelope 5).
Proof.
  destruct (@decoders_only_log
              (raw_platform false) bytes_converter
              (mkSearchRequestDecoder (mkRelativeTime 5))
              (mkDocsumRequestDecoder (mkRelativeTime 5))
              (incoming garbage_envelope 5))
    as ((Hrpc & _ & _ & _ & Hwarn) & _).
  split; [| exact Hrpc].
  destruct (Hwarn eq_refl) as (es & Htrace).
  reflexivity.
Defined.

(** ** Client-side reply decoding *)

Section ReplyDecoderFacts.
Context {P : Platform} {PC : ProtoConverter}.

(** [decode_message] on an envelope whose blob decompresses to bytes of the
    declared size: the result is what these bytes parse to. *)
Lemma decode_message_of_declared_size
      (MSG : Type) (PM : ProtoMessage MSG)
      (encoding n : Z) (blob data : bytes) (w : World) :
  decompress (toType encoding) n blob = Some data ->
  n = size data ->
  decode_message (MSG := MSG) [FRT_INT8 encoding; FRT_INT32 n; FRT_DATA blob] w =
  (Done (ParseFromArray data), traced [EvDecompress blob; EvParse data] w).
Proof.
  intros Hd Hn.
  rewrite (@decode_message_decompressed P MSG PM encoding n blob data w Hd).
  subst n. rewrite Z.eqb_refl, orb_true_r. reflexivity.
Qed.

(** C8.  When the return values of a completed call are not of shape
    [bix], the three reply decoders return false and leave the world as it
    was: nothing is decompressed or parsed.  When they are of shape [bix],
    they form an envelope and each decoder gives what [decode_message] gives
    on it: the blob is decompressed under the algorithm and size the envelope
    declares, and bytes of the declared size are parsed into the wire-level
    reply (false when they do not parse).  In particular, the return values
    that [encode_message] wrote for a reply [m] decode to [m] when the codec
    parts undo each other on [m]. *)
Theorem reply_decoders_check_shape_first (w : World) :
  (GetTypeString (GetReturn (rpc w)) <> "bix"%string ->
   decode_search_reply w = (Done None, w) /\
   decode_docsum_reply w = (Done None, w) /\
   decode_monitor_reply w = (Done None, w)) /\
  (GetTypeString (GetReturn (rpc w)) = "bix"%string ->
   exists encoding n blob,
     GetReturn (rpc w) = [FRT_INT8 encoding; FRT_INT32 n; FRT_DATA blob] /\
     decode_search_reply w =
     decode_message [FRT_INT8 encoding; FRT_INT32 n; FRT_DATA blob] w /\
     decode_docsum_reply w =
     decode_message [FRT_INT8 encoding; FRT_INT32 n; FRT_DATA blob] w /\
     decode_monitor_reply w =
     decode_message [FRT_INT8 encoding; FRT_INT32 n; FRT_DATA blob] w /\
     (forall data,
         decompress (toType encoding) n blob = Some data ->
         n = size data ->
         decode_search_reply w =
         (Done (ParseFromArray data), traced [EvDecompress blob; EvParse data] w) /\
         decode_docsum_reply w =
         (Done (ParseFromArray data), traced [EvDecompress blob; EvParse data] w) /\
         decode_monitor_reply w =
         (Done (ParseFromArray data), traced [EvDecompress blob; EvParse data] w))) /\
  (forall s (m : ProtoSearchReply),
      codec_roundtrips s m -> GetReturn (rpc w) = encode_message s m [] ->
      fst (decode_search_reply w) = Done (Some m)) /\
  (forall s (m : ProtoDocsumReply),
      codec_roundtrips s m -> GetReturn (rpc w) = encode_message s m [] ->
      fst (decode_docsum_reply w) = Done (Some m)) /\
  (forall s (m : ProtoMonitorReply),
      codec_roundtrips s m -> GetReturn (rpc w) = encode_message s m [] ->
      fst (decode_monitor_reply w) = Done (Some m)).
Proof.
  split; [| split; [| split; [| split]]].
  - intros Hshape.
    assert (Hcheck : CheckReturnTypes "bix" (rpc w) = false).
    { unfold CheckReturnTypes. apply String.eqb_neq. congruence. }
    unfold decode_search_reply, decode_docsum_reply, decode_monitor_reply,
      bind, get_world; simpl.
    rewrite Hcheck. repeat split.
  - intros Hshape.
    assert (Hcheck : CheckReturnTypes "bix" (rpc w) = true).
    { unfold CheckReturnTypes. apply String.eqb_eq. congruence. }
    destruct (bix_is_envelope _ Hshape) as (encoding & n & blob & Hret).
    exists encoding, n, blob.
    assert (Hs : decode_search_reply w =
                 decode_message [FRT_INT8 encoding; FRT_INT32 n; FRT_DATA blob] w).
    { unfold decode_search_reply, bind, get_world; simpl.
      rewrite Hcheck, Hret. reflexivity. }
    assert (Hd : decode_docsum_reply w =
                 decode_message [FRT_INT8 encoding; FRT_INT32 n; FRT_DATA blob] w).
    { unfold decode_docsum_reply, bind, get_world; simpl.
      rewrite Hcheck, Hret. reflexivity. }
    assert (Hm : decode_monitor_reply w =
                 decode_message [FRT_INT8 encoding; FRT_INT32 n; FRT_DATA blob] w).
    { unfold decode_monitor_reply, bind, get_world; simpl.
      rewrite Hcheck, Hret. reflexivity. }
    split; [exact Hret |].
    split; [exact Hs |]. split; [exact Hd |]. split; [exact Hm |].
    intros data Hdec Hn.
    rewrite Hs, Hd, Hm.
    rewrite !(@decode_message_of_declared_size _ _ encoding n blob data w Hdec Hn).
    repeat split.
  - intros s m Hrt Hret. exact (@decode_search_reply_envelope _ _ s m w Hrt Hret).
  - intros s m Hrt Hret. exact (@decode_docsum_reply_envelope _ _ s m w Hrt Hret).
  - intros s m Hrt Hret. exact (@decode_monitor_reply_envelope _ _ s m w Hrt Hret).
Qed.
End ReplyDecoderFacts.

Lemma reply_decoders_check_shape_first_witness :
  decode_search_reply (P := raw_platform false) (PC := bytes_converter)
    (completed [FRT_INT8 0; FRT_INT32 3; FRT_INT64 7])
  = (Done None, completed [FRT_INT8 0; FRT_INT32 3; FRT_INT64 7]) /\
  decode_search_reply (P := raw_platform false) (PC := bytes_converter)
    (completed good_envelope)
  = (Done (Some [x68; x69]),
     traced [EvDecompress [x0a; x68; x69]; EvParse [x0a; x68; x69]]
            (completed good_envelope)) /\
  fst (decode_monitor_reply (P := raw_platform false) (PC := bytes_converter)
         (completed good_envelope)) = Done (Some [x68; x69]).
Proof.
  destruct (@reply_decoders_check_shape_first
              (raw_platform false) bytes_converter
              (completed [FRT_INT8 0; FRT_INT32 3; FRT_INT64 7]))
    as (Hbad & _).
  destruct (@reply_decoders_check_shape_first
              (raw_platform false) bytes_converter (completed good_envelope))
    as (_ & Hgood & _ & _ & Hmonitor).
  split; [apply Hbad; vm_compute; discriminate |].
  split.
  - destruct (Hgood eq_refl) as (encoding & n & blob & Hret & _ & _ & _ & Hdata).
    injection Hret as He Hn Hb. subst encoding n blob.
    apply (Hdata [x0a; x68; x69]); reflexivity.
  - apply (Hmonitor example_streamer [x68; x69]).
    + apply tagged_roundtrips. vm_compute. reflexivity.
    + reflexivity.
Defined.

(** ** The size assertion on calls from the wire *)

(** C4.  The code breaks the claim on a ping call whose payload was
    truncated: the parameters declare 17 bytes and carry 3, so the payload
    fails to decode by its size.  With assertions compiled in, [rpc_ping]
    ends in the failed assertion of [decode_message]: no error is set and the
    call is never returned.  With assertions compiled out the mismatch goes
    unnoticed, the request is parsed from the 3 bytes and the monitor server
    is run on it, and its reply envelope is written. *)
Theorem rpc_ping_on_truncated_request :
  fst (rpc_ping (P := raw_platform false) echo_monitor_server
                (incoming truncated_envelope 5)) = AssertionFailed /\
  GetError (rpc (snd (rpc_ping (P := raw_platform false) echo_monitor_server
                               (incoming truncated_envelope 5)))) = None /\
  ReturnCount (rpc (snd (rpc_ping (P := raw_platform false) echo_monitor_server
                                  (incoming truncated_envelope 5)))) = 0%nat /\
  fst (rpc_ping (P := raw_platform true) echo_monitor_server
                (incoming truncated_envelope 5)) = Done tt /\
  GetError (rpc (snd (rpc_ping (P := raw_platform true) echo_monitor_server
                               (incoming truncated_envelope 5)))) = None /\
  GetReturn (rpc (snd (rpc_ping (P := raw_platform true) echo_monitor_server
                                (incoming truncated_envelope 5))))
  = [FRT_INT8 0; FRT_INT32 3; FRT_DATA [x0a; x68; x69]].
Proof. repeat split. Qed.

(** C5.  The code breaks the claim on a search or docsum call whose envelope
    was corrupted in its size: the parameters declare 17 bytes and carry 3.
    With assertions compiled in, [decode] of either decoder ends in the
    failed assertion of [decode_message] instead of returning null.  With
    assertions compiled out the mismatch goes unnoticed and the decoder
    delivers a request parsed from the 3 bytes. *)
Theorem decoders_on_truncated_envelope :
  fst (SearchRequestDecoder_decode (P := raw_platform false) (PC := bytes_converter)
         (mkSearchRequestDecoder (mkRelativeTime 5)) (incoming truncated_envelope 5))
  = AssertionFailed /\
  fst (DocsumRequestDecoder_decode (P := raw_platform false) (PC := bytes_converter)
         (mkDocsumRequestDecoder (mkRelativeTime 5)) (incoming truncated_envelope 5))
  = AssertionFailed /\
  fst (SearchRequestDecoder_decode (P := raw_platform true) (PC := bytes_converter)
         (mkSearchRequestDecoder (mkRelativeTime 5)) (incoming truncated_envelope 5))
  = Done (Some (mkSearchRequest (PC := bytes_converter) (mkRelativeTime 5) [x68; x69])) /\
  fst (DocsumRequestDecoder_decode (P := raw_platform true) (PC := bytes_converter)
         (mkDocsumRequestDecoder (mkRelativeTime 5)) (incoming truncated_envelope 5))
  = Done (Some (mkDocsumRequest (PC := bytes_converter) (mkRelativeTime 5) [x68; x69])).
Proof. repeat split. Qed.
